(** * fff: fetch, filter, persist

    A shallow embedding of [main.go]: the task that [main] starts for
    every line of standard input (the function literal of line 123), the
    loop around it, [normalisePath], and of the flag value types
    [headerArgs] and [statusArgs] what the task uses ([headerArgs.Set],
    [headerArgs.String], [statusArgs.Includes]).  The parsing of the
    flags and the construction of the HTTP client ([newClient]) are left
    out: a [Config] holds the variables that the flags set, and the
    client is part of the world.

    Go strings and byte slices are sequences of bytes; they are modelled
    by [string], whose characters are the 256 values of [ascii].  Go's
    [int] status codes are modelled by [Z], and [http.Header], a Go map,
    by a finite map.

    The answers of the Go standard library and of the operating system
    that depend on the outside (URL parsing, the HTTP round trip, the
    file system, the digest, the iteration order of a map) are the
    fields of a [World] record that the task consults.  What the task
    does to the outside is a list of [Event]s.  The pure library
    functions ([bytes.TrimSpace], [strings.Split], [path.Join], ...) are
    written out.

    The tasks run concurrently in the program; [main_loop] is the
    schedule in which each task ends before the next line is read. *)

From Stdlib Require Import ZArith NArith Ascii String List Bool Lia Permutation.
From Stdlib Require Import DecimalString DecimalPos.
From stdpp Require Import base gmap strings list fin_maps.

Import ListNotations.
Local Open Scope string_scope.

(** ** Byte strings as Go sees them *)

Module GoString.

Definition byte_val (c : ascii) : N := N_of_ascii c.

Definition in_range (lo hi : N) (c : ascii) : bool :=
  (lo <=? byte_val c)%N && (byte_val c <=? hi)%N.

Definition is_upper (c : ascii) : bool := in_range 65 90 c.
Definition is_lower (c : ascii) : bool := in_range 97 122 c.
Definition is_digit (c : ascii) : bool := in_range 48 57 c.

Definition to_lower (c : ascii) : ascii :=
  if is_upper c then ascii_of_N (byte_val c + 32) else c.

Definition to_upper (c : ascii) : ascii :=
  if is_lower c then ascii_of_N (byte_val c - 32) else c.

(** [strings.HasPrefix] / [bytes.HasPrefix]. *)
Fixpoint HasPrefix (s p : string) : bool :=
  match p, s with
  | EmptyString, _ => true
  | String _ _, EmptyString => false
  | String b p', String a s' => Ascii.eqb a b && HasPrefix s' p'
  end.

(** [bytes.Contains]: [sub] occurs in [s] as a run of raw bytes. *)
Fixpoint Contains (s sub : string) : bool :=
  HasPrefix s sub ||
  match s with
  | EmptyString => false
  | String _ s' => Contains s' sub
  end.

(** A literal of a pattern compiled with the [(?i)] flag matches a byte
    exactly when both have the same lower-case form; none of the
    letters used in this program has a fold partner outside ASCII. *)
Fixpoint HasPrefixFold (s p : string) : bool :=
  match p, s with
  | EmptyString, _ => true
  | String _ _, EmptyString => false
  | String b p', String a s' =>
      Ascii.eqb (to_lower a) (to_lower b) && HasPrefixFold s' p'
  end.

Fixpoint ContainsFold (s sub : string) : bool :=
  HasPrefixFold s sub ||
  match s with
  | EmptyString => false
  | String _ s' => ContainsFold s' sub
  end.

(** Every ASCII capital replaced by its small letter. *)
Fixpoint lower_ascii (s : string) : string :=
  match s with
  | EmptyString => EmptyString
  | String a s' => String (to_lower a) (lower_ascii s')
  end.

(** The white space of [unicode.IsSpace], by UTF-8 encoding.
    One byte: TAB, LF, VT, FF, CR and SPACE. *)
Definition space1 (a : ascii) : bool :=
  in_range 9 13 a || (byte_val a =? 32)%N.

(** Two bytes: U+0085 and U+00A0. *)
Definition space2 (a b : ascii) : bool :=
  (byte_val a =? 194)%N && ((byte_val b =? 133)%N || (byte_val b =? 160)%N).

(** Three bytes: U+1680, U+2000..U+200A, U+2028, U+2029, U+202F, U+205F
    and U+3000. *)
Definition space3 (a b c : ascii) : bool :=
  ((byte_val a =? 225)%N && (byte_val b =? 154)%N && (byte_val c =? 128)%N)
  || ((byte_val a =? 226)%N && (byte_val b =? 128)%N
      && (in_range 128 138 c || (byte_val c =? 168)%N
          || (byte_val c =? 169)%N || (byte_val c =? 175)%N))
  || ((byte_val a =? 226)%N && (byte_val b =? 129)%N && (byte_val c =? 159)%N)
  || ((byte_val a =? 227)%N && (byte_val b =? 128)%N && (byte_val c =? 128)%N).

(** Leading white-space runes removed; [enc2] and [enc3] say
    which two- and three-byte groups encode white space in the
    direction of travel. *)
Section Trim.
Variable enc2 : ascii -> ascii -> bool.
Variable enc3 : ascii -> ascii -> ascii -> bool.

Fixpoint trim_front (s : string) : string :=
    match s with
    | EmptyString => EmptyString
    | String a r1 =>
        if space1 a then trim_front r1
        else
          match r1 with
          | EmptyString => s
          | String b r2 =>
              if enc2 a b then trim_front r2
              else
                match r2 with
                | EmptyString => s
                | String c r3 => if enc3 a b c then trim_front r3 else s
                end
          end
    end.
End Trim.

Definition TrimLeftSpace (s : string) : string :=
  trim_front space2 space3 s.

Definition TrimRightSpace (s : string) : string :=
  String.rev
    (trim_front (fun a b => space2 b a) (fun a b c => space3 c b a)
                (String.rev s)).

(** [bytes.TrimSpace]. *)
Definition TrimSpace (s : string) : string :=
  TrimRightSpace (TrimLeftSpace s).

(** [strings.Split s sep] for a separator of one byte: the fragments
    between the occurrences of [sep]; one more than there are
    occurrences, so never the empty list.  A byte that is not the
    separator goes in front of the first fragment of the rest. *)
Definition to_first (a : ascii) (frags : list string) : list string :=
  match frags with
  | x :: rest => String a x :: rest
  | [] => [String a EmptyString]
  end.

Fixpoint Split (s : string) (sep : ascii) : list string :=
  match s with
  | EmptyString => [EmptyString]
  | String a s' =>
      if Ascii.eqb a sep then EmptyString :: Split s' sep
      else to_first a (Split s' sep)
  end.

(** How often the byte [sep] occurs in [s]. *)
Fixpoint count_byte (sep : ascii) (s : string) : nat :=
  match s with
  | EmptyString => 0
  | String a s' => (if Ascii.eqb a sep then 1 else 0) + count_byte sep s'
  end.

(** The bytes before the first [sep], and those after it when there is
    one. *)
Fixpoint cut (s : string) (sep : ascii) : string * option string :=
  match s with
  | EmptyString => (EmptyString, None)
  | String a s' =>
      if Ascii.eqb a sep then (EmptyString, Some s')
      else let '(before, after) := cut s' sep in (String a before, after)
  end.

(** [strings.SplitN s sep 2] for a separator of one byte: at most two
    parts, cut at the first occurrence. *)
Definition SplitN2 (s : string) (sep : ascii) : list string :=
  match cut s sep with
  | (before, Some after) => [before; after]
  | (before, None) => [before]
  end.

(** [strings.Join]. *)
Fixpoint Join (l : list string) (sep : string) : string :=
  match l with
  | [] => ""
  | [x] => x
  | x :: rest => x +:+ sep +:+ Join rest sep
  end.

Fixpoint concat (l : list string) : string :=
  match l with
  | [] => ""
  | x :: rest => x +:+ concat rest
  end.

End GoString.


(** ** The parts of Go's [path], [fmt] and [net/textproto] that the
    program calls *)

Module GoLib.
Import GoString.

Definition slash : ascii := "/"%char.

(** One element of a path met by [path.Clean], applied to the elements
    kept so far (innermost first).  Empty and [.] elements are skipped;
    [..] removes the element before it when there is one to remove and
    is kept when the path is relative and nothing is left to remove. *)
Definition clean_step (rooted : bool) (kept : list string) (elem : string)
  : list string :=
  if String.eqb elem "" then kept
  else if String.eqb elem "." then kept
  else if String.eqb elem ".." then
    match kept with
    | top :: below =>
        if String.eqb top ".."
        then (if rooted then kept else elem :: kept)
        else below
    | [] => if rooted then [] else [elem]
    end
  else elem :: kept.

(** [path.Clean]: the elements between the slashes, taken one after the
    other; the result starts with a slash when the path does, and is
    [.] when nothing is left. *)
Definition render (rooted : bool) (kept : list string) : string :=
  let out := (if rooted then "/" else "") +:+ Join (rev kept) "/" in
  if String.eqb out "" then "." else out.

Definition Clean (p : string) : string :=
  if String.eqb p "" then "."
  else
    let rooted := HasPrefix p "/" in
    render rooted (fold_left (clean_step rooted) (Split p slash) []).

(** An element that [Clean] keeps as it is: not empty, not [.], not [..]
    and free of slashes. *)
Definition plain_elem (e : string) : bool :=
  negb (String.eqb e "") && negb (String.eqb e ".")
  && negb (String.eqb e "..") && (count_byte slash e =? 0)%nat.

Definition nonempty (e : string) : bool := negb (String.eqb e "").

(** [path.Join]: the non-empty elements separated by slashes, cleaned;
    the empty string when every element is empty. *)
Definition path_Join (elems : list string) : string :=
  match List.filter nonempty elems with
  | [] => ""
  | es => Clean (Join es "/")
  end.

(** The part of a path up to and including its last slash. *)
Fixpoint dir_part (p : string) : string :=
  match p with
  | EmptyString => EmptyString
  | String c r =>
      if Ascii.eqb c slash || Contains r "/" then String c (dir_part r)
      else EmptyString
  end.

(** [path.Dir]. *)
Definition Dir (p : string) : string := Clean (dir_part p).

Fixpoint forall_bytes (f : ascii -> bool) (s : string) : bool :=
  match s with
  | EmptyString => true
  | String c r => f c && forall_bytes f r
  end.

(** The verb [%d] of [fmt] on an [int]. *)
Definition itoa (z : Z) : string :=
  DecimalString.NilZero.string_of_int (Z.to_int z).

Definition hex_digit (n : N) : ascii :=
  if (n <? 10)%N then ascii_of_N (48 + n) else ascii_of_N (87 + n).

(** The verb [%x] of [fmt] on a byte array: two lower-case hexadecimal
    digits per byte. *)
Fixpoint hex (bytes : string) : string :=
  match bytes with
  | EmptyString => EmptyString
  | String b r =>
      String (hex_digit (byte_val b / 16))
             (String (hex_digit (byte_val b mod 16)) (hex r))
  end.

Definition is_hex_digit (c : ascii) : bool :=
  is_digit c || in_range 97 102 c.

(** The bytes allowed in a header field name (an HTTP token). *)
Definition validHeaderFieldByte (c : ascii) : bool :=
  is_upper c || is_lower c || is_digit c
  || existsb (Ascii.eqb c) (list_ascii_of_string "!#$%&'*+-.^_`|~").

(** Upper case for the first letter and for a letter after a dash, lower
    case for every other letter. *)
Fixpoint canon_go (upper : bool) (s : string) : string :=
  match s with
  | EmptyString => EmptyString
  | String c r =>
      let c' := if upper then to_upper c else to_lower c in
      String c' (canon_go (Ascii.eqb c' "-"%char) r)
  end.

(** [textproto.CanonicalMIMEHeaderKey]: a name that is not a token is
    left as it is. *)
Definition CanonicalMIMEHeaderKey (s : string) : string :=
  if forall_bytes validHeaderFieldByte s then canon_go true s else s.

End GoLib.


(** ** The program *)

Module Fff.
Import GoString GoLib.

Definition nl : string := String (ascii_of_N 10) EmptyString.

(** The text of a Go [error]. *)
Definition GoError : Type := string.

(** *** Flag values: [headerArgs] and [statusArgs] *)

Definition headerArgs : Type := list string.

(** [func (h *headerArgs) Set(val string) error]: one more entry at the
    end. *)
Definition headerArgs_Set (h : headerArgs) (val : string) : headerArgs :=
  (h ++ [val])%list.

(** [func (h headerArgs) String() string]. *)
Definition headerArgs_String (h : headerArgs) : string := Join h ", ".

Definition statusArgs : Type := list Z.

(** [func (s statusArgs) Includes(search int) bool]. *)
Fixpoint Includes (s : statusArgs) (search : Z) : bool :=
  match s with
  | [] => false
  | status :: rest => if (status =? search)%Z then true else Includes rest search
  end.

(** *** Requests and responses *)

(** [http.Header], a Go map from canonical names to the values given for
    them. *)
Abbreviation Header := (gmap string (list string)).

(** [Header.Set]: the values of the canonical name are replaced by the
    one value. *)
Definition Header_Set (h : Header) (key value : string) : Header :=
  <[CanonicalMIMEHeaderKey key := [value]]> h.

(** [Header.Get]: the first value of the canonical name, or the empty
    string. *)
Definition Header_Get (h : Header) (key : string) : string :=
  match h !! CanonicalMIMEHeaderKey key with
  | Some (v :: _) => v
  | _ => ""
  end.

(** What the program reads of a [*url.URL]. *)
Record URL : Type := mkURL {
  Hostname : string;
  Path : string
}.

(** A [*http.Request] as the program builds it. *)
Record Request : Type := mkRequest {
  req_Method : string;
  req_rawURL : string;
  req_URL : URL;
  req_Header : Header;
  req_Body : option string
}.

(** A [*http.Response]; [resp_Body] is what [ioutil.ReadAll] makes of the
    body stream. *)
Record Response : Type := mkResponse {
  resp_Proto : string;
  resp_Status : string;
  resp_StatusCode : Z;
  resp_Header : Header;
  resp_Body : string + GoError
}.

(** The variables of [main] set from the flags and read by every task. *)
Record Config : Type := mkConfig {
  requestBody : string;
  headers : headerArgs;
  matchString : string;
  matchCode : statusArgs;
  filterCode : statusArgs;
  outputDir : string;
  ignoreHTMLFiles : bool;
  ignoreEmpty : bool
}.

(** The answers of the library and of the system.  An error is [Some]
    text or the right injection; [range_Header] is the order in which a
    [range] loop visits the names of a header map. *)
Record World : Type := mkWorld {
  url_ParseRequestURI : string -> option GoError;
  http_NewRequest : string -> string -> URL + GoError;
  client_Do : Request -> Response + GoError;
  sha1_Sum : string -> string;
  os_MkdirAll : string -> option GoError;
  ioutil_WriteFile : string -> string -> option GoError;
  os_Create : string -> option GoError;
  io_Copy : string -> string -> option GoError;
  range_Header : Header -> list string
}.

(** A [range] over a Go map visits every key once, in no promised
    order. *)
Definition range_visits_each_key_once (W : World) : Prop :=
  forall h : Header, Permutation (range_Header W h) (elements (dom h)).

(** What a task does to the outside. *)
Inductive Event : Type :=
| HTTPDo (req : Request)
| Stdout (text : string)
| Stderr (text : string)
| MkdirAll (dir : string)
| WriteFile (name data : string)
| Create (name : string)
| Copy (name data : string).

(** The events that reach an output channel: standard output, standard
    error or the file system. *)
Definition is_output (e : Event) : bool :=
  match e with
  | HTTPDo _ => false
  | _ => true
  end.

Definition outputs (ev : list Event) : list Event := List.filter is_output ev.

(** The requests handed to the client. *)
Fixpoint requests (ev : list Event) : list Request :=
  match ev with
  | [] => []
  | HTTPDo req :: rest => req :: requests rest
  | _ :: rest => requests rest
  end.

(** *** The response filter, lines 183 to 203 *)

(** [isHTML := regexp.MustCompile(`(?i)<html`)] *)
Definition isHTML (b : string) : bool := ContainsFold b "<html".

(** Which [return] of the filter a response leaves through, if any. *)
Inductive Verdict : Type :=
| Keep
| DropHTML
| DropEmpty
| DropMatchString
| DropMatchCode
| DropFilterCode.

Definition pred_html (c : Config) (responseBody : string) : bool :=
  ignoreHTMLFiles c && isHTML responseBody.

Definition pred_empty (c : Config) (responseBody : string) : bool :=
  ignoreEmpty c && (String.length (TrimSpace responseBody) =? 0)%nat.

Definition pred_matchString (c : Config) (responseBody : string) : bool :=
  negb (String.eqb (matchString c) "")
  && negb (Contains responseBody (matchString c)).

Definition pred_matchCode (c : Config) (StatusCode : Z) : bool :=
  (0 <? List.length (matchCode c))%nat && negb (Includes (matchCode c) StatusCode).

Definition pred_filterCode (c : Config) (StatusCode : Z) : bool :=
  (0 <? List.length (filterCode c))%nat && negb (Includes (filterCode c) StatusCode).

Definition classify (c : Config) (responseBody : string) (StatusCode : Z)
  : Verdict :=
  if pred_html c responseBody then DropHTML
  else if pred_empty c responseBody then DropEmpty
  else if pred_matchString c responseBody then DropMatchString
  else if pred_matchCode c StatusCode then DropMatchCode
  else if pred_filterCode c StatusCode then DropFilterCode
  else Keep.

(** *** A task: events so far, and whether it goes on *)

(** [(ev, Some a)]: the events [ev] happened and the task continues with
    [a]; [(ev, None)]: the task has executed a [return]. *)
Definition Run (A : Type) : Type := (list Event * option A)%type.

Definition ret {A : Type} (a : A) : Run A := ([], Some a).

Definition bind {A B : Type} (m : Run A) (k : A -> Run B) : Run B :=
  match m with
  | (ev, Some a) => let '(ev', r) := k a in ((ev ++ ev')%list, r)
  | (ev, None) => (ev, None)
  end.

Notation "x <- m ;; k" := (bind m (fun x => k))
  (at level 100, m at next level, right associativity).
Notation "m ;;; k" := (bind m (fun _ => k))
  (at level 100, right associativity).

Definition emit (e : Event) : Run unit := ([e], Some tt).

(** [if cond { return }] *)
Definition return_if (cond : bool) : Run unit :=
  if cond then ([], None) else ret tt.

(** [if err != nil { ...; return }] after a call that yields only an
    error. *)
Definition check (err : option GoError) (handler : GoError -> list Event)
  : Run unit :=
  match err with
  | None => ret tt
  | Some e => (handler e, None)
  end.

(** [if err != nil { ...; return }] after a call that yields a value or
    an error. *)
Definition attempt {A : Type} (r : A + GoError)
  (handler : GoError -> list Event) : Run A :=
  match r with
  | inl a => ret a
  | inr e => (handler e, None)
  end.

Definition events {A : Type} (r : Run A) : list Event := fst r.

(** *** The pieces of the task *)

(** ["%s,%s,status: %d,size: %d,words: %d,lines: %d,type: %s\n"] *)
Definition stdoutFormatStr (url location : string)
  (status size words lines : Z) (type : string) : string :=
  url +:+ "," +:+ location +:+ ",status: " +:+ itoa status
  +:+ ",size: " +:+ itoa size +:+ ",words: " +:+ itoa words
  +:+ ",lines: " +:+ itoa lines +:+ ",type: " +:+ type +:+ nl.

(** The line printed when a step of the request fails. *)
Definition error_line (rawURL : string) (err : GoError) : list Event :=
  [Stdout (stdoutFormatStr rawURL err 0 0 0 0 "error")].

(** Lines 127 to 135: the body reader, and the method once the body has
    been looked at. *)
Definition body_reader (requestBody : string) : option string :=
  if String.eqb requestBody "" then None else Some requestBody.

Definition promote (requestBody method : string) : string :=
  if negb (String.eqb requestBody "")
  then (if String.eqb method "GET" then "POST" else method)
  else method.

(** Lines 150 to 157: one [req.Header.Set] per entry that has a colon. *)
Definition add_header (h : Header) (entry : string) : Header :=
  match SplitN2 entry ":"%char with
  | [name; value] => Header_Set h name value
  | _ => h
  end.

Definition add_headers (hs : headerArgs) (h : Header) : Header :=
  fold_left add_header hs h.

(** The bytes that [[^a-zA-Z0-9/._-]] does not match. *)
Definition path_byte (c : ascii) : bool :=
  is_lower c || is_upper c || is_digit c
  || existsb (Ascii.eqb c) (list_ascii_of_string "/._-").

(** [re.ReplaceAllString(s, "-")] for [[^a-zA-Z0-9/._-]+]: every maximal
    run of other bytes becomes one dash; [in_run] says that the byte
    before was part of such a run. *)
Fixpoint replace_runs (in_run : bool) (s : string) : string :=
  match s with
  | EmptyString => EmptyString
  | String c r =>
      if path_byte c then String c (replace_runs false r)
      else if in_run then replace_runs true r
      else String "-"%char (replace_runs true r)
  end.

(** In the words of the specification: [t] is [s] with every maximal run
    of bytes outside [[a-zA-Z0-9/._-]] replaced by one dash.  A run is
    maximal when what follows it is the end or a byte of the class. *)
Definition starts_in_class (s : string) : bool :=
  match s with
  | EmptyString => true
  | String c _ => path_byte c
  end.

Inductive RunsReplaced : string -> string -> Prop :=
| rr_end : RunsReplaced "" ""
| rr_keep (c : ascii) (s t : string) :
    path_byte c = true ->
    RunsReplaced s t ->
    RunsReplaced (String c s) (String c t)
| rr_run (run s t : string) :
    run <> "" ->
    forall_bytes (fun c => negb (path_byte c)) run = true ->
    starts_in_class s = true ->
    RunsReplaced s t ->
    RunsReplaced (run +:+ s) (String "-"%char t).

(** [func normalisePath(u *url.URL) string] *)
Definition normalisePath (u : URL) : string := replace_runs false (Path u).

(** Line 216: the digest that names the files. *)
Definition hash (W : World) (c : Config) (method rawURL : string) : string :=
  sha1_Sum W (method +:+ rawURL +:+ requestBody c
              +:+ headerArgs_String (headers c)).

(** Lines 217 and 232: the paths of the two files. *)
Definition artifact_path (W : World) (c : Config) (prefix method rawURL : string)
  (u : URL) (ext : string) : string :=
  path_Join [prefix; Hostname u; normalisePath u;
             hex (hash W c method rawURL) +:+ ext].

(** Line 263: [fmt.Sprintf("< %s: %s\n", k, v)]. *)
Definition header_line (k v : string) : string :=
  "< " +:+ k +:+ ": " +:+ v +:+ nl.

(** Lines 261 to 265: the [range] over the response headers, the names
    being visited in the order [order]. *)
Definition header_lines (order : list string) (h : Header) : list string :=
  flat_map (fun k => map (header_line k) (default [] (h !! k))) order.

(** Lines 240 to 265: the text of the [.headers] file. *)
Definition transcript (W : World) (c : Config) (method rawURL : string)
  (resp : Response) : string :=
  (method +:+ " " +:+ rawURL +:+ nl +:+ nl)
  +:+ concat (map (fun h => "> " +:+ h +:+ nl) (headers c))
  +:+ nl
  +:+ (if negb (String.eqb (requestBody c) "")
       then requestBody c +:+ nl +:+ nl else "")
  +:+ ("< " +:+ resp_Proto resp +:+ " " +:+ resp_Status resp +:+ nl)
  +:+ concat (header_lines (range_Header W (resp_Header resp))
                           (resp_Header resp)).

(** *** The task, lines 123 to 276 *)

(** Lines 100 to 103. *)
Definition prefix_of (c : Config) : string :=
  if String.eqb (outputDir c) "" then "out" else outputDir c.

(** Lines 142 to 157: the request that [http.NewRequest] makes of the
    method, the raw URL and the body reader, [u] being the URL it parsed,
    with the headers set on it.  [http.NewRequest] reads the empty
    method as ["GET"] and takes any other method as it is given. *)
Definition built_request (c : Config) (method rawURL : string) (u : URL)
  : Request :=
  {| req_Method := if String.eqb method "" then "GET" else method;
     req_rawURL := rawURL;
     req_URL := u;
     req_Header := add_headers (headers c) ∅;
     req_Body := body_reader (requestBody c) |}.

(** Lines 137 to 175: from the raw URL to the body of the response.
    [method] is the variable of [main] after lines 127 to 135. *)
Definition fetch (W : World) (c : Config) (method rawURL : string)
  : Run (Request * Response * string) :=
  check (url_ParseRequestURI W rawURL) (fun _ => []) ;;;
  u <- attempt (http_NewRequest W method rawURL) (error_line rawURL) ;;
  let req := built_request c method rawURL u in
  emit (HTTPDo req) ;;;
  resp <- attempt (client_Do W req) (error_line rawURL) ;;
  responseBody <- attempt (resp_Body resp) (error_line rawURL) ;;
  ret (req, resp, responseBody).

(** Lines 183 to 203: the five tests, each with its [return]. *)
Definition filter_response (c : Config) (responseBody : string)
  (StatusCode : Z) : Run unit :=
  return_if (ignoreHTMLFiles c && isHTML responseBody) ;;;
  return_if (ignoreEmpty c
             && (String.length (TrimSpace responseBody) =? 0)%nat) ;;;
  return_if (negb (String.eqb (matchString c) "")
             && negb (Contains responseBody (matchString c))) ;;;
  return_if ((0 <? List.length (matchCode c))%nat
             && negb (Includes (matchCode c) StatusCode)) ;;;
  return_if ((0 <? List.length (filterCode c))%nat
             && negb (Includes (filterCode c) StatusCode)).

(** Lines 205 to 212: the line of a response in summary mode. *)
Definition summary_line (rawURL : string) (resp : Response)
  (responseBody : string) : string :=
  let ContentLength := Z.of_nat (String.length responseBody) in
  let wordsSize := Z.of_nat (List.length (Split responseBody " "%char)) in
  let linesSize := Z.of_nat (List.length (Split responseBody "010"%char)) in
  stdoutFormatStr rawURL (Header_Get (resp_Header resp) "Location")
    (resp_StatusCode resp) ContentLength wordsSize linesSize
    (Header_Get (resp_Header resp) "Content-Type").

(** Lines 214 to 275: the two files and the line that names the first. *)
Definition persist (W : World) (c : Config) (method rawURL : string)
  (req : Request) (resp : Response) (responseBody : string) : Run unit :=
  let p := artifact_path W c (prefix_of c) method rawURL (req_URL req) ".body" in
  emit (MkdirAll (Dir p)) ;;;
  check (os_MkdirAll W (Dir p))
        (fun err => [Stderr ("failed to create dir: " +:+ err +:+ nl)]) ;;;
  emit (WriteFile p responseBody) ;;;
  check (ioutil_WriteFile W p responseBody)
        (fun err => [Stderr ("failed to write file contents: " +:+ err +:+ nl)]) ;;;
  let headersPath :=
    artifact_path W c (prefix_of c) method rawURL (req_URL req) ".headers" in
  emit (Create headersPath) ;;;
  check (os_Create W headersPath)
        (fun err => [Stderr ("failed to create file: " +:+ err +:+ nl)]) ;;;
  let buf := transcript W c method rawURL resp in
  emit (Copy headersPath buf) ;;;
  check (io_Copy W headersPath buf)
        (fun err => [Stderr ("failed to write file contents: " +:+ err +:+ nl)]) ;;;
  emit (Stdout (p +:+ ": " +:+ rawURL +:+ " " +:+ itoa (resp_StatusCode resp)
                +:+ nl)).

(** The function literal of line 123, with [method] as the task finds it;
    the second component is [method] as the task leaves it. *)
Definition task (W : World) (c : Config) (method rawURL : string)
  : Run unit * string :=
  let method := promote (requestBody c) method in
  (x <- fetch W c method rawURL ;;
   let '(req, resp, responseBody) := x in
   filter_response c responseBody (resp_StatusCode resp) ;;;
   if String.eqb (outputDir c) ""
   then emit (Stdout (summary_line rawURL resp responseBody))
   else persist W c method rawURL req resp responseBody,
   method).

(** *** The loop of [main], lines 113 to 279 *)

(** The variable [method], shared by the tasks, and the counter of the
    wait group. *)
Record State : Type := mkState {
  method : string;
  wg : Z
}.

(** One schedule of the loop, the one in which a task has finished, and
    its deferred [wg.Done()] has run, when the next line is read.  The
    program starts the tasks as goroutines and fixes no order between
    the events of different tasks: the order in which [main_loop] lists
    the events of different tasks is that of this schedule only. *)
Fixpoint main_loop (W : World) (c : Config) (st : State)
  (lines : list string) : list Event * State :=
  match lines with
  | [] => ([], st)
  | rawURL :: rest =>
      let added := (wg st + 1)%Z in
      let '(r, m) := task W c (method st) rawURL in
      let '(ev, st') := main_loop W c {| method := m; wg := (added - 1)%Z |} rest in
      ((events r ++ ev)%list, st')
  end.

(** The values that the variable [method], which the tasks share, can
    hold while the program runs: the value that the flags gave it, and
    what lines 128 to 135 of a task make of a value that it has held. *)
Inductive method_value (c : Config) (flag : string) : string -> Prop :=
| mv_flag : method_value c flag flag
| mv_task (m : string) :
    method_value c flag m ->
    method_value c flag (promote (requestBody c) m).

(** [wg.Wait()] returns when the counter is zero. *)
Definition Wait_returns (st : State) : bool := (wg st =? 0)%Z.

End Fff.


(** ** The header map of a response; worlds and configurations to run
    the program on *)

Module Sample.
Import GoString GoLib Fff.

(** [h[key] = append(h[key], value)]: one more value in the entry of
    [key], after those it has. *)
Definition append_value (h : Header) (key value : string) : Header :=
  <[key := (default [] (h !! key) ++ [value])%list]> h.


(** A header line whose name stands as the header map has it, that is
    in canonical form. *)
Definition add_line (h : Header) (kv : string * string) : Header :=
  append_value h (fst kv) (snd kv).

(** The header map of a response whose header lines, with the names as
    the map has them, are [lines]. *)
Definition header_of_lines (lines : list (string * string)) : Header :=
  fold_left add_line lines ∅.



(** The line of the transcript for one line of the response. *)
Definition wire_line (kv : string * string) : string :=
  header_line (fst kv) (snd kv).

(** The lines of the response that give a value for the name [k]. *)
Definition lines_of (k : string) (lines : list (string * string))
  : list (string * string) :=
  List.filter (fun kv => String.eqb (fst kv) k) lines.

(** The values that the lines give for the name [k], in their order. *)
Definition values_of (k : string) (lines : list (string * string))
  : list string :=
  map snd (List.filter (fun kv => String.eqb (fst kv) k) lines).

Definition plain_headers : Header :=
  header_of_lines [("Content-Type", "text/plain"); ("Location", "/next")].

Definition ok_response (body : string) : Response :=
  {| resp_Proto := "HTTP/1.1";
     resp_Status := "200 OK";
     resp_StatusCode := 200;
     resp_Header := plain_headers;
     resp_Body := inl body |}.

(** A world with one host: lines that start with [http://] parse, the
    method [BAD METHOD] is refused, the URL that ends in [/down] cannot
    be reached, the one that ends in [/cut] breaks off while the body is
    read, and every other request is answered with [body]. *)
Definition world (body : string) : World :=
  {| url_ParseRequestURI := fun rawURL =>
       if HasPrefix rawURL "http://" then None
       else Some "invalid URI for request";
     http_NewRequest := fun method rawURL =>
       if String.eqb method "BAD METHOD"
       then inr "net/http: invalid method"
       else inl {| Hostname := "example.test";
                   Path := String.substring 19 (String.length rawURL) rawURL |};
     client_Do := fun req =>
       if String.eqb (Path (req_URL req)) "/down"
       then inr "dial tcp: connection refused"
       else if String.eqb (Path (req_URL req)) "/cut"
       then inl {| resp_Proto := "HTTP/1.1";
                   resp_Status := "200 OK";
                   resp_StatusCode := 200;
                   resp_Header := plain_headers;
                   resp_Body := inr "unexpected EOF" |}
       else inl (ok_response body);
     sha1_Sum := fun _ => String (ascii_of_N 171) (String (ascii_of_N 9) "");
     os_MkdirAll := fun _ => None;
     ioutil_WriteFile := fun _ _ => None;
     os_Create := fun _ => None;
     io_Copy := fun _ _ => None;
     range_Header := fun h => elements (dom h) |}.

Definition no_filters : Config :=
  {| requestBody := "";
     headers := [];
     matchString := "";
     matchCode := [];
     filterCode := [];
     outputDir := "";
     ignoreHTMLFiles := false;
     ignoreEmpty := false |}.

Definition with_body (b : string) : Config :=
  {| requestBody := b;
     headers := ["X-Token: one"; "no colon here"; "x-token:two"];
     matchString := "";
     matchCode := [];
     filterCode := [];
     outputDir := "";
     ignoreHTMLFiles := false;
     ignoreEmpty := false |}.

Definition skip_empty : Config :=
  {| requestBody := "";
     headers := [];
     matchString := "";
     matchCode := [];
     filterCode := [];
     outputDir := "";
     ignoreHTMLFiles := true;
     ignoreEmpty := true |}.

Definition only_codes (codes : list Z) : Config :=
  {| requestBody := "";
     headers := [];
     matchString := "";
     matchCode := [];
     filterCode := codes;
     outputDir := "";
     ignoreHTMLFiles := false;
     ignoreEmpty := false |}.

Definition to_dir (dir : string) (hs : headerArgs) : Config :=
  {| requestBody := "";
     headers := hs;
     matchString := "";
     matchCode := [];
     filterCode := [];
     outputDir := dir;
     ignoreHTMLFiles := false;
     ignoreEmpty := false |}.

End Sample.


(** ** The rest of [main.go]: the status flag, the client, and what to
    look for in a trace *)

Module Flags.
Import GoString GoLib Fff.

(** *** [statusArgs.Set], lines 327 to 336 *)

(** The values of an [int] where it has 64 bits. *)
Definition in_int_range (z : Z) : bool :=
  (- 2 ^ 63 <=? z)%Z && (z <=? 2 ^ 63 - 1)%Z.

(** Decimal digits, at least one; with [negative] the value is negated.
    A value outside [int] is an error. *)
Definition parse_digits (negative : bool) (digits : string) : option Z :=
  match NilZero.uint_of_string digits with
  | Some d =>
      let z := if negative then (- Z.of_uint d)%Z else Z.of_uint d in
      if in_int_range z then Some z else None
  | None => None
  end.

(** [strconv.Atoi]: an optional sign and decimal digits; [None] is an
    error. *)
Definition Atoi (s : string) : option Z :=
  match s with
  | EmptyString => None
  | String c r =>
      if Ascii.eqb c "-"%char then parse_digits true r
      else if Ascii.eqb c "+"%char then parse_digits false r
      else parse_digits false s
  end.

(** The body of the loop of lines 329 to 333. *)
Definition add_status (s : statusArgs) (item : string) : statusArgs :=
  match Atoi item with
  | Some iVal => (s ++ [iVal])%list
  | None => s
  end.

(** [func (s *statusArgs) Set(val string) error]; the error is always
    [nil]. *)
Definition statusArgs_Set (s : statusArgs) (val : string) : statusArgs :=
  fold_left add_status (Split val ","%char) s.

(** [func (s statusArgs) String() string] *)
Definition statusArgs_String (s : statusArgs) : string := "string".

(** Whether an item of a flag value is the number [x]. *)
Definition item_is (x : Z) (item : string) : bool :=
  match Atoi item with
  | Some z => (z =? x)%Z
  | None => false
  end.

(** *** [newClient], lines 283 to 312 *)

(** Durations in nanoseconds. *)
Definition Second : Z := 1000000000.

(** [http.ErrUseLastResponse] *)
Definition ErrUseLastResponse : GoError := "net/http: use last response".

(** The fields of [http.Transport] and of [net.Dialer] that [newClient]
    sets; [Proxy] is the proxy URL when one is in use. *)
Record Transport (ProxyURL : Type) : Type := mkTransport {
  MaxIdleConns : Z;
  IdleConnTimeout : Z;
  DisableKeepAlives : bool;
  InsecureSkipVerify : bool;
  Dialer_Timeout : Z;
  Dialer_KeepAlive : Z;
  Proxy : option ProxyURL
}.

Arguments MaxIdleConns {ProxyURL} _.
Arguments IdleConnTimeout {ProxyURL} _.
Arguments DisableKeepAlives {ProxyURL} _.
Arguments InsecureSkipVerify {ProxyURL} _.
Arguments Dialer_Timeout {ProxyURL} _.
Arguments Dialer_KeepAlive {ProxyURL} _.
Arguments Proxy {ProxyURL} _.

(** The fields of [http.Client] that [newClient] sets. *)
Record Client (ProxyURL : Type) : Type := mkClient {
  client_Transport : Transport ProxyURL;
  CheckRedirect : Request -> list Request -> GoError;
  client_Timeout : Z
}.

Arguments client_Transport {ProxyURL} _.
Arguments CheckRedirect {ProxyURL} _ _ _.
Arguments client_Timeout {ProxyURL} _.

Section NewClient.
Variable ProxyURL : Type.

(** [url.Parse] *)
Variable url_Parse : string -> ProxyURL + GoError.

(** [func newClient(keepAlives bool, proxy string) *http.Client] *)
Definition newClient (keepAlives : bool) (proxy : string) : Client ProxyURL :=
  let tr :=
    {| MaxIdleConns := 30;
       IdleConnTimeout := Second;
       DisableKeepAlives := negb keepAlives;
       InsecureSkipVerify := true;
       Dialer_Timeout := Second * 10;
       Dialer_KeepAlive := Second;
       Proxy := None |} in
  let tr :=
    if negb (String.eqb proxy "") then
      match url_Parse proxy with
      | inl p =>
          {| MaxIdleConns := MaxIdleConns tr;
             IdleConnTimeout := IdleConnTimeout tr;
             DisableKeepAlives := DisableKeepAlives tr;
             InsecureSkipVerify := InsecureSkipVerify tr;
             Dialer_Timeout := Dialer_Timeout tr;
             Dialer_KeepAlive := Dialer_KeepAlive tr;
             Proxy := Some p |}
      | inr _ => tr
      end
    else tr in
  {| client_Transport := tr;
     CheckRedirect := fun _ _ => ErrUseLastResponse;
     client_Timeout := Second * 10 |}.

End NewClient.

(** A header map with one value for every name it holds. *)
Definition single_valued (h : Header) : Prop :=
  forall k vs, h !! k = Some vs -> exists v, vs = [v].

(** *** Reading a trace *)

(** The lines a task prints, on standard output or on standard error. *)
Definition is_line (e : Event) : bool :=
  match e with
  | Stdout _ | Stderr _ => true
  | _ => false
  end.

(** The calls that reach the file system. *)
Definition is_file_call (e : Event) : bool :=
  match e with
  | MkdirAll _ | WriteFile _ _ | Create _ | Copy _ _ => true
  | _ => false
  end.

Definition is_stdout (e : Event) : bool :=
  match e with
  | Stdout _ => true
  | _ => false
  end.

Definition is_stderr (e : Event) : bool :=
  match e with
  | Stderr _ => true
  | _ => false
  end.

(** Some byte of [s] satisfies [f]. *)
Fixpoint exists_byte (f : ascii -> bool) (s : string) : bool :=
  match s with
  | EmptyString => false
  | String c r => f c || exists_byte f r
  end.

(** An ASCII byte that is not white space. *)
Definition solid (c : ascii) : bool :=
  negb (space1 c) && (byte_val c <? 128)%N.

End Flags.


(** ** The library functions on the inputs of their own tests *)

Module LibraryChecks.
Import GoString GoLib.

Example Clean_already_clean :
  map Clean ["abc"; "abc/def"; "a/b/c"; "."; ".."; "../.."; "../../abc";
             "/abc"; "/"]
  = ["abc"; "abc/def"; "a/b/c"; "."; ".."; "../.."; "../../abc"; "/abc"; "/"].
Proof. reflexivity. Qed.

Example Clean_empty_and_trailing_slash :
  map Clean [""; "abc/"; "abc/def/"; "a/b/c/"; "./"; "../"; "../../"; "/abc/"]
  = ["."; "abc"; "abc/def"; "a/b/c"; "."; ".."; "../.."; "/abc"].
Proof. reflexivity. Qed.

Example Clean_doubled_slash :
  map Clean ["abc//def//ghi"; "//abc"; "///abc"; "//abc//"; "abc//"]
  = ["abc/def/ghi"; "/abc"; "/abc"; "/abc"; "abc"].
Proof. reflexivity. Qed.

Example Clean_dot :
  map Clean ["abc/./def"; "/./abc/def"; "abc/."]
  = ["abc/def"; "/abc/def"; "abc"].
Proof. reflexivity. Qed.

Example Clean_dotdot :
  map Clean ["abc/def/ghi/../jkl"; "abc/def/../ghi/../jkl"; "abc/def/..";
             "abc/def/../.."; "/abc/def/../.."; "abc/def/../../..";
             "/abc/def/../../.."; "abc/def/../../../ghi/jkl/../../../mno"]
  = ["abc/def/jkl"; "abc/jkl"; "abc"; "."; "/"; ".."; "/"; "../../mno"].
Proof. reflexivity. Qed.

Example Clean_combinations :
  map Clean ["abc/./../def"; "abc//./../def"; "abc/../../././../def"]
  = ["def"; "def"; "../../def"].
Proof. reflexivity. Qed.

Example path_Join_table :
  map path_Join [[]; [""]; ["a"]; ["a"; "b"]; ["a"; ""]; [""; "b"];
                 ["/"; "a"]; ["/"; ""]; ["a/"; "b"]; ["a/"; ""]; [""; ""]]
  = [""; ""; "a"; "a/b"; "a"; "b"; "/a"; "/"; "a/b"; "a"; ""].
Proof. reflexivity. Qed.

Example Dir_table :
  map Dir [""; "abc"; "abc/def"; "abc////def"; "a/b/.x"; "a/b/c."; "a/b/c.x";
           "/"; "/abc"]
  = ["."; "."; "abc"; "abc"; "a/b"; "a/b"; "a/b"; "/"; "/"].
Proof. reflexivity. Qed.

Example CanonicalMIMEHeaderKey_table :
  map CanonicalMIMEHeaderKey
      ["a-b-c"; "a-1-c"; "User-Agent"; "uSER-aGENT"; "user-agent";
       "USER-AGENT"; "foo bar"; "C Ontent-Transfer-Encoding"]
  = ["A-B-C"; "A-1-C"; "User-Agent"; "User-Agent"; "User-Agent";
     "User-Agent"; "foo bar"; "C Ontent-Transfer-Encoding"].
Proof. reflexivity. Qed.

Example Split_table :
  map (fun s => Split s ","%char) [""; "a"; "a,b,c"; ",a,"; ","]
  = [[""]; ["a"]; ["a"; "b"; "c"]; [""; "a"; ""]; [""; ""]].
Proof. reflexivity. Qed.

Example SplitN2_table :
  map (fun s => SplitN2 s ":"%char) [""; "a"; "a:b"; "a:b:c"; ":b"; "a:"]
  = [[""]; ["a"]; ["a"; "b"]; ["a"; "b:c"]; [""; "b"]; ["a"; ""]].
Proof. reflexivity. Qed.

Example Join_table :
  map (fun l => Join l ", ") [[]; ["a"]; ["a"; "b"]; ["a"; ""; "c"]]
  = [""; "a"; "a, b"; "a, , c"].
Proof. reflexivity. Qed.

Example TrimSpace_table :
  map TrimSpace
      [""; "abc"; "  abc  ";
       String (ascii_of_N 9) (String (ascii_of_N 10) " a b ");
       String (ascii_of_N 194) (String (ascii_of_N 160) "x");
       String (ascii_of_N 226) (String (ascii_of_N 128)
         (String (ascii_of_N 168) ""));
       String (ascii_of_N 160) ""]
  = [""; "abc"; "abc"; "a b"; "x"; ""; String (ascii_of_N 160) ""].
Proof. reflexivity. Qed.

Example itoa_table :
  map itoa [0; 7; 200; 404; -1; 1234567890]%Z
  = ["0"; "7"; "200"; "404"; "-1"; "1234567890"].
Proof. reflexivity. Qed.

Example hex_table :
  hex (String (ascii_of_N 0) (String (ascii_of_N 10)
        (String (ascii_of_N 171) (String (ascii_of_N 255) ""))))
  = "000aabff".
Proof. reflexivity. Qed.

End LibraryChecks.


(** ** Paths *)

Module PathFacts.
Import GoString GoLib Fff.

Lemma sapp_nil_l (s : string) : "" +:+ s = s.
Proof. reflexivity. Qed.

Lemma sapp_cons (a : ascii) (s t : string) :
  String a s +:+ t = String a (s +:+ t).
Proof. reflexivity. Qed.

Lemma sapp_nil_r (s : string) : s +:+ "" = s.
Proof.
  induction s as [|a s IH]; [reflexivity|].
  rewrite sapp_cons, IH. reflexivity.
Qed.

Lemma sapp_assoc (a b c : string) : (a +:+ b) +:+ c = a +:+ (b +:+ c).
Proof.
  induction a as [|x a IH]; [reflexivity|].
  rewrite !sapp_cons, IH. reflexivity.
Qed.

Lemma eqb_app_empty (a : ascii) (s t : string) :
  String.eqb (String a s +:+ t) "" = false.
Proof. reflexivity. Qed.

(** *** Splitting and joining *)

Lemma Split_nonempty (s : string) (sep : ascii) : Split s sep <> [].
Proof.
  destruct s as [|a s]; simpl; [discriminate|].
  destruct (Ascii.eqb a sep); [discriminate|].
  destruct (Split s sep); discriminate.
Qed.

Lemma to_first_app (a : ascii) (l1 l2 : list string) :
  l1 <> [] -> to_first a (l1 ++ l2)%list = (to_first a l1 ++ l2)%list.
Proof. destruct l1; [congruence|reflexivity]. Qed.

(** A separator between two strings separates their fragments. *)
Lemma Split_app_sep (a b : string) (sep : ascii) :
  Split (a +:+ String sep b) sep = (Split a sep ++ Split b sep)%list.
Proof.
  induction a as [|x a IH].
  - rewrite sapp_nil_l. simpl. rewrite Ascii.eqb_refl. reflexivity.
  - rewrite sapp_cons. simpl. rewrite IH.
    destruct (Ascii.eqb x sep); [reflexivity|].
    apply to_first_app, Split_nonempty.
Qed.

Lemma Split_plain (e : string) (sep : ascii) :
  count_byte sep e = 0 -> Split e sep = [e].
Proof.
  induction e as [|a e IH]; simpl; [reflexivity|].
  destruct (Ascii.eqb a sep); [discriminate|]. intros Hc.
  rewrite IH by exact Hc. reflexivity.
Qed.

Lemma Join_cons (e : string) (es : list string) (sep : string) :
  es <> [] -> Join (e :: es) sep = e +:+ sep +:+ Join es sep.
Proof. destruct es; [congruence|reflexivity]. Qed.

Lemma Join_app (l1 l2 : list string) (sep : string) :
  l1 <> [] -> l2 <> [] ->
  Join (l1 ++ l2) sep = Join l1 sep +:+ sep +:+ Join l2 sep.
Proof.
  intros H1 H2. induction l1 as [|e l1 IH]; [congruence|].
  destruct l1 as [|e' l1].
  - simpl. apply Join_cons. exact H2.
  - change ((e :: e' :: l1) ++ l2)%list with (e :: (e' :: l1) ++ l2)%list.
    rewrite Join_cons by discriminate.
    rewrite IH by discriminate.
    rewrite (Join_cons e (e' :: l1)) by discriminate.
    rewrite !sapp_assoc. reflexivity.
Qed.

(** The fragments of a joined list are the fragments of its elements. *)
Lemma Split_Join (es : list string) :
  es <> [] ->
  Split (Join es "/") slash = flat_map (fun e => Split e slash) es.
Proof.
  induction es as [|e es IH]; [congruence|]. intros _.
  destruct es as [|e' es].
  - simpl. rewrite List.app_nil_r. reflexivity.
  - rewrite Join_cons by discriminate.
    change ("/" +:+ Join (e' :: es) "/")
      with (String slash (Join (e' :: es) "/")).
    rewrite Split_app_sep, IH by discriminate. reflexivity.
Qed.

(** *** Cleaning *)

Lemma clean_fold_skips_empty (rooted : bool) (l : list string) :
  forall kept,
    fold_left (clean_step rooted) (List.filter nonempty l) kept
    = fold_left (clean_step rooted) l kept.
Proof.
  induction l as [|e l IH]; intros kept; [reflexivity|].
  simpl. unfold nonempty at 1.
  destruct (String.eqb_spec e "") as [->|Hne]; simpl; apply IH.
Qed.

Lemma fragments_filter (es : list string) :
  List.filter nonempty (flat_map (fun e => Split e slash)
                                 (List.filter nonempty es))
  = List.filter nonempty (flat_map (fun e => Split e slash) es).
Proof.
  induction es as [|e es IH]; [reflexivity|].
  simpl. unfold nonempty at 2.
  destruct (String.eqb_spec e "") as [->|Hne]; simpl.
  - exact IH.
  - rewrite !List.filter_app, IH. reflexivity.
Qed.

Lemma Join_starts (e : string) (es : list string) (sep : string) :
  exists t, Join (e :: es) sep = e +:+ t.
Proof.
  destruct es as [|e' es].
  - exists "". simpl. symmetry. apply sapp_nil_r.
  - eexists. apply Join_cons. discriminate.
Qed.

(** [Clean] of a joined list whose first element is not empty. *)
Lemma Clean_Join (e : string) (es : list string) :
  e <> "" ->
  Clean (Join (e :: es) "/") =
  render (HasPrefix e "/")
         (fold_left (clean_step (HasPrefix e "/"))
                    (flat_map (fun x => Split x slash) (e :: es)) []).
Proof.
  intros Hne. unfold Clean, render.
  rewrite Split_Join by discriminate.
  destruct (Join_starts e es "/") as [t ->].
  destruct e as [|a e]; [congruence|].
  rewrite sapp_cons.
  assert (H1 : String.eqb (String a (e +:+ t)) "" = false) by reflexivity.
  assert (H2 : HasPrefix (String a (e +:+ t)) "/" = HasPrefix (String a e) "/").
  { cbn [HasPrefix]. destruct (e +:+ t), e; reflexivity. }
  rewrite H1, H2. reflexivity.
Qed.

(** [path.Join] is [Clean] of the elements with slashes between them,
    when the first element is not empty. *)
Lemma path_Join_Clean (e : string) (es : list string) :
  e <> "" -> path_Join (e :: es) = Clean (Join (e :: es) "/").
Proof.
  intros Hne. unfold path_Join.
  assert (Hf : List.filter nonempty (e :: es)
               = e :: List.filter nonempty es).
  { cbn [List.filter]. unfold nonempty at 1.
    destruct (String.eqb_spec e ""); [congruence|reflexivity]. }
  rewrite Hf, !Clean_Join by exact Hne. f_equal.
  rewrite <- clean_fold_skips_empty.
  rewrite <- (clean_fold_skips_empty _ (flat_map _ (e :: es))).
  f_equal. rewrite <- Hf. apply fragments_filter.
Qed.

(** *** Paths made of plain elements *)

Lemma clean_step_plain (rooted : bool) (kept : list string) (e : string) :
  plain_elem e = true -> clean_step rooted kept e = e :: kept.
Proof.
  unfold plain_elem, clean_step.
  destruct (String.eqb e ""), (String.eqb e "."), (String.eqb e "..");
    simpl; (discriminate || reflexivity).
Qed.

Lemma clean_fold_plain (rooted : bool) (l : list string) :
  Forall (fun e => plain_elem e = true) l ->
  forall kept,
    fold_left (clean_step rooted) l kept = (rev l ++ kept)%list.
Proof.
  induction 1 as [|e l He _ IH]; intros kept; [reflexivity|].
  simpl. rewrite clean_step_plain by exact He.
  rewrite IH, <- List.app_assoc. reflexivity.
Qed.

Lemma plain_no_slash (e : string) :
  plain_elem e = true -> count_byte slash e = 0.
Proof.
  unfold plain_elem. rewrite !andb_true_iff. intros [_ H].
  apply Nat.eqb_eq. exact H.
Qed.

Lemma plain_nonempty (e : string) : plain_elem e = true -> e <> "".
Proof. intros H ->. discriminate H. Qed.

Lemma plain_not_rooted (e : string) :
  plain_elem e = true -> HasPrefix e "/" = false.
Proof.
  intros H. pose proof (plain_no_slash e H) as Hc.
  destruct e as [|a e]; [reflexivity|]. simpl in *.
  fold slash. destruct (Ascii.eqb a slash); [discriminate|reflexivity].
Qed.

Lemma Split_Join_plain (es : list string) :
  es <> [] ->
  Forall (fun e => plain_elem e = true) es ->
  Split (Join es "/") slash = es.
Proof.
  intros Hne Hall. rewrite Split_Join by exact Hne.
  clear Hne. induction Hall as [|e es He _ IH]; [reflexivity|].
  simpl. rewrite (Split_plain e slash (plain_no_slash e He)), IH.
  reflexivity.
Qed.

(** Elements that are plain once the empty fragments are gone are joined
    as they are. *)
Lemma path_Join_plain (e : string) (es all : list string) :
  e <> "" ->
  HasPrefix e "/" = false ->
  List.filter nonempty (flat_map (fun x => Split x slash) (e :: es)) = all ->
  all <> [] ->
  Forall (fun x => plain_elem x = true) all ->
  path_Join (e :: es) = Join all "/".
Proof.
  intros Hne Hrel Hfrag Hsome Hall.
  rewrite path_Join_Clean, Clean_Join by exact Hne.
  rewrite Hrel, <- clean_fold_skips_empty, Hfrag.
  rewrite (clean_fold_plain false all Hall), List.app_nil_r.
  unfold render. rewrite rev_involutive, sapp_nil_l.
  destruct all as [|x all]; [congruence|].
  destruct (Join_starts x all "/") as [t Ht]. rewrite Ht.
  pose proof (plain_nonempty x (Forall_inv Hall)) as Hx.
  destruct x as [|a x]; [congruence|]. reflexivity.
Qed.

(** *** The name of the file *)

Lemma count_byte_app (c : ascii) (a b : string) :
  count_byte c (a +:+ b) = count_byte c a + count_byte c b.
Proof.
  induction a as [|x a IH]; [reflexivity|].
  rewrite sapp_cons. simpl. rewrite IH. lia.
Qed.

Lemma length_app (a b : string) :
  String.length (a +:+ b) = String.length a + String.length b.
Proof.
  induction a as [|x a IH]; [reflexivity|].
  rewrite sapp_cons. simpl. rewrite IH. reflexivity.
Qed.

Lemma hex_digits_no_slash (b : ascii) :
  Ascii.eqb (hex_digit (byte_val b / 16)) slash = false
  /\ Ascii.eqb (hex_digit (byte_val b mod 16)) slash = false.
Proof.
  destruct b as [[] [] [] [] [] [] [] []]; split; reflexivity.
Qed.

Lemma hex_no_slash (bytes : string) : count_byte slash (hex bytes) = 0.
Proof.
  induction bytes as [|b bytes IH]; [reflexivity|].
  simpl. destruct (hex_digits_no_slash b) as [-> ->]. exact IH.
Qed.

Lemma hex_digits_are_hex (b : ascii) :
  is_hex_digit (hex_digit (byte_val b / 16)) = true
  /\ is_hex_digit (hex_digit (byte_val b mod 16)) = true.
Proof.
  destruct b as [[] [] [] [] [] [] [] []]; split; reflexivity.
Qed.

(** Two digits for every byte, each one of [0-9a-f]. *)
Lemma hex_shape (bytes : string) :
  String.length (hex bytes) = 2 * String.length bytes
  /\ forall_bytes is_hex_digit (hex bytes) = true.
Proof.
  induction bytes as [|b bytes [IHl IHd]]; [split; reflexivity|].
  cbn [hex String.length forall_bytes].
  destruct (hex_digits_are_hex b) as [-> ->].
  rewrite IHl, IHd. split; [lia|reflexivity].
Qed.

(** The digest in hexadecimal, with [.body] or [.headers] after it, is a
    plain element. *)
Lemma file_name_plain (digest ext : string) :
  count_byte slash ext = 0 ->
  3 <= String.length ext ->
  plain_elem (hex digest +:+ ext) = true.
Proof.
  intros Hext Hlen. unfold plain_elem.
  rewrite count_byte_app, hex_no_slash, Hext. simpl.
  assert (Hbig : 3 <= String.length (hex digest +:+ ext))
    by (rewrite length_app; lia).
  destruct (String.eqb_spec (hex digest +:+ ext) "") as [E|_];
    [rewrite E in Hbig; simpl in Hbig; lia|].
  destruct (String.eqb_spec (hex digest +:+ ext) ".") as [E|_];
    [rewrite E in Hbig; simpl in Hbig; lia|].
  destruct (String.eqb_spec (hex digest +:+ ext) "..") as [E|_];
    [rewrite E in Hbig; simpl in Hbig; lia|].
  reflexivity.
Qed.

(** *** [normalisePath] *)

Lemma replace_runs_spec (s : string) :
  RunsReplaced s (replace_runs false s)
  /\ (forall run : string,
        run <> "" ->
        forall_bytes (fun c => negb (path_byte c)) run = true ->
        RunsReplaced (run +:+ s) (String "-"%char (replace_runs true s))).
Proof.
  induction s as [|c s [IHP IHQ]].
  - split; [constructor|].
    intros run Hne Hbad. simpl. apply rr_run; auto. constructor.
  - simpl. destruct (path_byte c) eqn:Hc.
    + assert (Hkeep : RunsReplaced (String c s)
                        (String c (replace_runs false s)))
        by (apply rr_keep; assumption).
      split; [exact Hkeep|].
      intros run Hne Hbad. apply rr_run; auto.
    + split.
      * apply (IHQ (String c "")); [discriminate|].
        simpl. rewrite Hc. reflexivity.
      * intros run Hne Hbad.
        replace (run +:+ String c s) with ((run +:+ String c "") +:+ s)
          by (rewrite sapp_assoc; reflexivity).
        apply IHQ.
        -- destruct run; discriminate.
        -- clear -Hbad Hc. induction run as [|x run IH]; simpl in *.
           ++ rewrite Hc. reflexivity.
           ++ apply andb_true_iff in Hbad as [-> Hbad]. simpl.
              apply IH. exact Hbad.
Qed.

Lemma replace_runs_in_run (run s : string) :
  forall_bytes (fun c => negb (path_byte c)) run = true ->
  replace_runs true (run +:+ s) = replace_runs true s.
Proof.
  induction run as [|x run IH]; [reflexivity|].
  intros Hbad. cbn [forall_bytes] in Hbad.
  apply andb_true_iff in Hbad as [Hx Hbad].
  change (String x run +:+ s) with (String x (run +:+ s)).
  cbn [replace_runs].
  destruct (path_byte x); [discriminate Hx|]. apply IH. exact Hbad.
Qed.

Lemma replace_runs_after_run (s : string) :
  starts_in_class s = true -> replace_runs true s = replace_runs false s.
Proof.
  destruct s as [|c s]; [reflexivity|]. simpl. intros ->. reflexivity.
Qed.

(** The specification determines the result. *)
Lemma RunsReplaced_unique (s t : string) :
  RunsReplaced s t -> t = replace_runs false s.
Proof.
  induction 1 as [|c s t Hc _ IH|run s t Hne Hbad Hnext _ IH].
  - reflexivity.
  - simpl. rewrite Hc, IH. reflexivity.
  - destruct run as [|x run]; [congruence|].
    cbn [forall_bytes] in Hbad. apply andb_true_iff in Hbad as [Hx Hbad].
    change (String x run +:+ s) with (String x (run +:+ s)).
    cbn [replace_runs].
    destruct (path_byte x); [discriminate Hx|].
    rewrite (replace_runs_in_run run s Hbad).
    rewrite (replace_runs_after_run s Hnext), IH. reflexivity.
Qed.

End PathFacts.


(** ** The response filter *)

Module Classifier.
Import GoString GoLib Fff.

Lemma Includes_In (s : statusArgs) (search : Z) :
  Includes s search = true <-> In search s.
Proof.
  induction s as [|status rest IH]; simpl.
  - split; [discriminate | tauto].
  - destruct (Z.eqb_spec status search) as [->|Hne].
    + split; auto.
    + rewrite IH. split; [auto | intros [H|H]; [contradiction | exact H]].
Qed.

Lemma nonempty_length {A : Type} (l : list A) :
  (0 <? List.length l)%nat = true <-> l <> [].
Proof.
  destruct l; simpl; split; intros H; try congruence; try discriminate.
  reflexivity.
Qed.

(** A status test of the filter, read as a statement about the list. *)
Lemma status_test_spec (codes : statusArgs) (StatusCode : Z) :
  (0 <? List.length codes)%nat && negb (Includes codes StatusCode) = true
  <-> codes <> [] /\ ~ In StatusCode codes.
Proof.
  rewrite andb_true_iff, negb_true_iff, nonempty_length.
  rewrite <- Includes_In.
  destruct (Includes codes StatusCode); intuition congruence.
Qed.

(** The chain of tests in the task and [classify] agree: the task goes on
    exactly when the verdict is [Keep], and prints nothing either way. *)
Lemma filter_response_classify (c : Config) (responseBody : string)
  (StatusCode : Z) :
  filter_response c responseBody StatusCode =
  ([], match classify c responseBody StatusCode with
       | Keep => Some tt
       | _ => None
       end).
Proof.
  unfold filter_response, classify, pred_html, pred_empty, pred_matchString,
    pred_matchCode, pred_filterCode.
  repeat match goal with
         | |- context [return_if ?b] => destruct b; simpl; try reflexivity
         end.
Qed.

(** *** What the string tests say *)

Lemma HasPrefix_spec (s p : string) :
  HasPrefix s p = true <-> exists post, s = p +:+ post.
Proof.
  revert s. induction p as [|b p IH]; intros s.
  - destruct s; simpl; split; eauto.
  - destruct s as [|a s]; simpl.
    + split; [discriminate|]. intros [post H]. discriminate H.
    + rewrite andb_true_iff, IH. split.
      * intros [Hab [post ->]]. apply Ascii.eqb_eq in Hab as ->.
        exists post. reflexivity.
      * intros [post H]. injection H as -> ->.
        split; [apply Ascii.eqb_refl|eauto].
Qed.

(** [Contains s sub] holds exactly when [sub] stands somewhere in [s]. *)
Lemma Contains_spec (s sub : string) :
  Contains s sub = true <-> exists pre post, s = pre +:+ sub +:+ post.
Proof.
  induction s as [|a s IH].
  - cbn [Contains]. rewrite orb_false_r, HasPrefix_spec. split.
    + intros [post H]. exists "", post. exact H.
    + intros [[|x pre] [post H]]; [eauto|discriminate H].
  - cbn [Contains]. rewrite orb_true_iff, HasPrefix_spec, IH. split.
    + intros [[post H]|[pre [post H]]].
      * exists "", post. exact H.
      * exists (String a pre), post. rewrite H. reflexivity.
    + intros [[|x pre] [post H]].
      * left. eauto.
      * right. injection H as -> ->. eauto.
Qed.

Lemma HasPrefixFold_lower (s p : string) :
  HasPrefixFold s p = HasPrefix (lower_ascii s) (lower_ascii p).
Proof.
  revert s. induction p as [|b p IH]; intros [|a s]; simpl; try reflexivity.
  rewrite IH. reflexivity.
Qed.

(** Matching without regard to case is matching the small letters. *)
Lemma ContainsFold_lower (s sub : string) :
  ContainsFold s sub = Contains (lower_ascii s) (lower_ascii sub).
Proof.
  induction s as [|a s IH]; cbn [ContainsFold Contains lower_ascii].
  - rewrite HasPrefixFold_lower. reflexivity.
  - rewrite IH, (HasPrefixFold_lower (String a s)). reflexivity.
Qed.


(** C1. The filter tests, in this order, (1) [ignoreHTMLFiles] and the
    body contains [<html] in any mix of cases, (2) [ignoreEmpty] and the
    body trimmed of white space is empty, (3) [matchString] is set and
    is not a run of bytes of the body, (4) [matchCode] is not empty and
    lacks the status, (5) [filterCode] is not empty and lacks the status;
    it leaves through the [return] of the first test that holds.  So a
    response is kept exactly when no test holds, and is dropped by test
    [k] exactly when test [k] holds and no earlier one does; the chain
    of [if]s in the task is silent and carries on exactly for a kept
    response; and the empty body, with both [ignoreHTMLFiles] and
    [ignoreEmpty] set, is dropped by the empty test. *)
Theorem classifier_fixed_order (c : Config) (responseBody : string)
  (StatusCode : Z) :
  let v := classify c responseBody StatusCode in
  let t1 := pred_html c responseBody in
  let t2 := pred_empty c responseBody in
  let t3 := pred_matchString c responseBody in
  let t4 := pred_matchCode c StatusCode in
  let t5 := pred_filterCode c StatusCode in
  (v = Keep <->
     t1 = false /\ t2 = false /\ t3 = false /\ t4 = false /\ t5 = false)
  /\ (v = DropHTML <-> t1 = true)
  /\ (v = DropEmpty <-> t1 = false /\ t2 = true)
  /\ (v = DropMatchString <-> t1 = false /\ t2 = false /\ t3 = true)
  /\ (v = DropMatchCode <->
        t1 = false /\ t2 = false /\ t3 = false /\ t4 = true)
  /\ (v = DropFilterCode <->
        t1 = false /\ t2 = false /\ t3 = false /\ t4 = false /\ t5 = true)
  /\ filter_response c responseBody StatusCode =
       ([], match v with Keep => Some tt | _ => None end)
  /\ (t1 = (ignoreHTMLFiles c && Contains (lower_ascii responseBody) "<html")
      /\ t2 = (ignoreEmpty c
               && (String.length (TrimSpace responseBody) =? 0)%nat)
      /\ (t3 = true <->
            matchString c <> ""
            /\ ~ exists pre post,
                  responseBody = pre +:+ matchString c +:+ post)
      /\ (t4 = true <-> matchCode c <> [] /\ ~ In StatusCode (matchCode c))
      /\ (t5 = true <-> filterCode c <> [] /\ ~ In StatusCode (filterCode c)))
  /\ (ignoreHTMLFiles c = true /\ ignoreEmpty c = true ->
      classify c "" StatusCode = DropEmpty).
Proof.
  cbv zeta.
  split; [|split; [|split; [|split; [|split; [|split; [|split; [|split]]]]]]].
  1-6: unfold classify;
    destruct (pred_html c responseBody), (pred_empty c responseBody),
      (pred_matchString c responseBody), (pred_matchCode c StatusCode),
      (pred_filterCode c StatusCode);
    split; intros H; repeat split; try congruence;
    repeat match goal with G : _ /\ _ |- _ => destruct G end; congruence.
  - apply filter_response_classify.
  - split; [unfold pred_html, isHTML; rewrite ContainsFold_lower;
            reflexivity|].
    split; [reflexivity|]. split; [|split; apply status_test_spec].
    unfold pred_matchString.
    rewrite andb_true_iff, !negb_true_iff, String.eqb_neq.
    rewrite <- Contains_spec.
    destruct (Contains responseBody (matchString c)); intuition congruence.
  - intros [Hh He]. unfold classify, pred_html, pred_empty.
    rewrite Hh, He. reflexivity.
Qed.

(** The filter on a few responses. *)
Example empty_body_leaves_by_the_empty_test :
  classify Sample.skip_empty "" 200 = DropEmpty.
Proof. reflexivity. Qed.

Example html_in_any_case_is_html :
  classify Sample.skip_empty " <HtML> " 200 = DropHTML.
Proof. reflexivity. Qed.

Example blank_body_is_empty :
  classify Sample.skip_empty (" " +:+ Fff.nl) 200 = DropEmpty.
Proof. reflexivity. Qed.

End Classifier.


(** ** How a task unfolds *)

Module TaskFacts.
Import GoString GoLib Fff Classifier.

Lemma app_nil_r_events (ev : list Event) : (ev ++ [])%list = ev.
Proof. apply app_nil_r. Qed.

(** The method a task works with. *)
Lemma task_method (W : World) (c : Config) (method rawURL : string) :
  snd (task W c method rawURL) = promote (requestBody c) method.
Proof. reflexivity. Qed.

(** A task whose request fails ends where the request ended. *)
Lemma task_fetch_failed (W : World) (c : Config) (method rawURL : string)
  (ev : list Event) :
  fetch W c (promote (requestBody c) method) rawURL = (ev, None) ->
  fst (task W c method rawURL) = (ev, None).
Proof. unfold task; simpl. intros ->. reflexivity. Qed.

(** A task whose response is dropped does nothing after the request. *)
Lemma task_dropped (W : World) (c : Config) (method rawURL : string)
  (ev : list Event) (req : Request) (resp : Response) (responseBody : string) :
  fetch W c (promote (requestBody c) method) rawURL
    = (ev, Some (req, resp, responseBody)) ->
  classify c responseBody (resp_StatusCode resp) <> Keep ->
  fst (task W c method rawURL) = (ev, None).
Proof.
  unfold task; simpl. intros -> Hdrop. simpl.
  rewrite filter_response_classify.
  destruct (classify c responseBody (resp_StatusCode resp));
    try contradiction; simpl; rewrite app_nil_r; reflexivity.
Qed.

(** A task whose response is kept goes on to print or to persist. *)
Lemma task_kept (W : World) (c : Config) (method rawURL : string)
  (ev : list Event) (req : Request) (resp : Response) (responseBody : string) :
  fetch W c (promote (requestBody c) method) rawURL
    = (ev, Some (req, resp, responseBody)) ->
  classify c responseBody (resp_StatusCode resp) = Keep ->
  fst (task W c method rawURL) =
    bind (ev, Some tt)
      (fun _ =>
         if String.eqb (outputDir c) ""
         then emit (Stdout (summary_line rawURL resp responseBody))
         else persist W c (promote (requestBody c) method) rawURL
                req resp responseBody).
Proof.
  unfold task; simpl. intros -> Hkeep. simpl.
  rewrite filter_response_classify, Hkeep. simpl.
  destruct (if String.eqb (outputDir c) "" then _ else _) as [ev' r].
  reflexivity.
Qed.

Lemma task_kept_summary (W : World) (c : Config) (method rawURL : string)
  (ev : list Event) (req : Request) (resp : Response) (responseBody : string) :
  outputDir c = "" ->
  fetch W c (promote (requestBody c) method) rawURL
    = (ev, Some (req, resp, responseBody)) ->
  classify c responseBody (resp_StatusCode resp) = Keep ->
  fst (task W c method rawURL) =
    ((ev ++ [Stdout (summary_line rawURL resp responseBody)])%list, Some tt).
Proof.
  intros Hout Hfetch Hkeep.
  rewrite (task_kept _ _ _ _ _ _ _ _ Hfetch Hkeep), Hout. reflexivity.
Qed.

(** The steps of [fetch], one lemma for each way out. *)
Lemma fetch_bad_url (W : World) (c : Config) (method rawURL : string)
  (err : GoError) :
  url_ParseRequestURI W rawURL = Some err ->
  fetch W c method rawURL = ([], None).
Proof. unfold fetch. intros ->. reflexivity. Qed.

Lemma fetch_bad_request (W : World) (c : Config) (method rawURL : string)
  (err : GoError) :
  url_ParseRequestURI W rawURL = None ->
  http_NewRequest W method rawURL = inr err ->
  fetch W c method rawURL = (error_line rawURL err, None).
Proof. unfold fetch. intros -> ->. reflexivity. Qed.

Lemma fetch_no_response (W : World) (c : Config) (method rawURL : string)
  (u : URL) (err : GoError) :
  url_ParseRequestURI W rawURL = None ->
  http_NewRequest W method rawURL = inl u ->
  client_Do W (built_request c method rawURL u) = inr err ->
  fetch W c method rawURL =
    (HTTPDo (built_request c method rawURL u) :: error_line rawURL err, None).
Proof.
  unfold fetch, built_request. intros -> -> Hdo. simpl.
  rewrite Hdo. reflexivity.
Qed.

Lemma fetch_no_body (W : World) (c : Config) (method rawURL : string)
  (u : URL) (resp : Response) (err : GoError) :
  url_ParseRequestURI W rawURL = None ->
  http_NewRequest W method rawURL = inl u ->
  client_Do W (built_request c method rawURL u) = inl resp ->
  resp_Body resp = inr err ->
  fetch W c method rawURL =
    (HTTPDo (built_request c method rawURL u) :: error_line rawURL err, None).
Proof.
  unfold fetch, built_request. intros -> -> Hdo Hbody. simpl.
  rewrite Hdo. simpl. rewrite Hbody. reflexivity.
Qed.

Lemma fetch_ok (W : World) (c : Config) (method rawURL : string)
  (u : URL) (resp : Response) (responseBody : string) :
  url_ParseRequestURI W rawURL = None ->
  http_NewRequest W method rawURL = inl u ->
  client_Do W (built_request c method rawURL u) = inl resp ->
  resp_Body resp = inl responseBody ->
  fetch W c method rawURL =
    ([HTTPDo (built_request c method rawURL u)],
     Some (built_request c method rawURL u, resp, responseBody)).
Proof.
  unfold fetch, built_request. intros -> -> Hdo Hbody. simpl.
  rewrite Hdo. simpl. rewrite Hbody. reflexivity.
Qed.

(** Every way through [fetch] is one of the five above. *)
Lemma fetch_cases (W : World) (c : Config) (method rawURL : string) :
  (exists err, url_ParseRequestURI W rawURL = Some err)
  \/ (url_ParseRequestURI W rawURL = None /\
      ((exists err, http_NewRequest W method rawURL = inr err)
       \/ exists u, http_NewRequest W method rawURL = inl u /\
          ((exists err, client_Do W (built_request c method rawURL u) = inr err)
           \/ exists resp,
               client_Do W (built_request c method rawURL u) = inl resp /\
               ((exists err, resp_Body resp = inr err)
                \/ exists responseBody, resp_Body resp = inl responseBody)))).
Proof.
  destruct (url_ParseRequestURI W rawURL) as [err|]; [left; eauto|right].
  split; [reflexivity|].
  destruct (http_NewRequest W method rawURL) as [u|err]; [right|left; eauto].
  exists u. split; [reflexivity|].
  destruct (client_Do W (built_request c method rawURL u)) as [resp|err];
    [right|left; eauto].
  exists resp. split; [reflexivity|].
  destruct (resp_Body resp) as [b|err]; [right|left]; eauto.
Qed.

(** The loop runs the task of the first line and goes on with the rest,
    the counter of the wait group being what it was. *)
Lemma main_loop_cons (W : World) (c : Config) (st : State)
  (rawURL : string) (rest : list string) :
  main_loop W c st (rawURL :: rest) =
    let st' := {| method := promote (requestBody c) (method st); wg := wg st |} in
    ((events (fst (task W c (method st) rawURL))
      ++ fst (main_loop W c st' rest))%list,
     snd (main_loop W c st' rest)).
Proof.
  cbn [main_loop]. unfold task. cbv zeta.
  replace (wg st + 1 - 1)%Z with (wg st) by lia.
  destruct (main_loop W c _ rest) as [ev st']. reflexivity.
Qed.

Lemma main_loop_wg (W : World) (c : Config) (lines : list string) :
  forall st, wg (snd (main_loop W c st lines)) = wg st.
Proof.
  induction lines as [|rawURL rest IH]; intros st; [reflexivity|].
  rewrite main_loop_cons. cbv zeta. simpl. rewrite IH. reflexivity.
Qed.

End TaskFacts.


(** ** The status lists *)

Module StatusFilter.
Import GoString GoLib Fff Classifier TaskFacts.


Example status_outside_filterCode_is_dropped :
  classify (Sample.only_codes [200; 301]%Z) "x" 404 = DropFilterCode.
Proof. reflexivity. Qed.

Example status_inside_filterCode_is_kept :
  classify (Sample.only_codes [200; 301]%Z) "x" 301 = Keep.
Proof. reflexivity. Qed.

End StatusFilter.


(** ** Where a response is stored *)

Module ArtifactPath.
Import GoString GoLib Fff PathFacts.

Lemma prefix_of_nonempty (c : Config) : prefix_of c <> "".
Proof.
  unfold prefix_of.
  destruct (String.eqb_spec (outputDir c) ""); [discriminate|assumption].
Qed.

(** What [persist] writes with [ioutil.WriteFile] is the body, under the
    path built on line 217. *)
Lemma persist_writes_body (W : World) (c : Config) (method rawURL : string)
  (req : Request) (resp : Response) (responseBody name data : string) :
  In (WriteFile name data)
     (events (persist W c method rawURL req resp responseBody)) ->
  name = artifact_path W c (prefix_of c) method rawURL (req_URL req) ".body"
  /\ data = responseBody.
Proof.
  unfold persist. cbv zeta.
  destruct (os_MkdirAll W _);
    [|destruct (ioutil_WriteFile W _ _);
      [|destruct (os_Create W _); [|destruct (io_Copy W _ _)]]];
    unfold events; cbn; intros Hin;
    repeat (destruct Hin as [Hin|Hin]; [try discriminate Hin|]);
    try contradiction;
    inversion Hin; auto.
Qed.

Lemma filter_plain (l : list string) :
  Forall (fun e => plain_elem e = true) l -> List.filter nonempty l = l.
Proof.
  induction 1 as [|e l He _ IH]; [reflexivity|]. simpl.
  unfold nonempty at 1.
  destruct (String.eqb_spec e "") as [->|_]; [discriminate He|].
  simpl. rewrite IH. reflexivity.
Qed.

Lemma Join_plain_relative (ps : list string) :
  ps <> [] ->
  Forall (fun e => plain_elem e = true) ps ->
  Join ps "/" <> "" /\ HasPrefix (Join ps "/") "/" = false.
Proof.
  intros Hne Hall. destruct ps as [|e ps]; [congruence|].
  destruct (Join_starts e ps "/") as [t ->].
  pose proof (plain_not_rooted e (Forall_inv Hall)) as Hrel.
  pose proof (plain_nonempty e (Forall_inv Hall)) as Hx.
  destruct e as [|a e]; [congruence|]. rewrite sapp_cons.
  split; [discriminate|].
  cbn [HasPrefix] in *. destruct (Ascii.eqb a "/"); [|reflexivity].
  destruct e; discriminate Hrel.
Qed.

(** The path when every part is made of plain elements. *)
Lemma artifact_path_plain (prefix host np file : string)
  (ps qs : list string) :
  ps <> [] -> qs <> [] ->
  Forall (fun e => plain_elem e = true) ps ->
  Forall (fun e => plain_elem e = true) qs ->
  plain_elem host = true ->
  plain_elem file = true ->
  prefix = Join ps "/" ->
  np = "/" +:+ Join qs "/" ->
  path_Join [prefix; host; np; file]
  = prefix +:+ "/" +:+ host +:+ np +:+ "/" +:+ file.
Proof.
  intros Hps Hqs Aps Aqs Hhost Hfile -> ->.
  destruct (Join_plain_relative ps Hps Aps) as [Hne Hrel].
  assert (Hall : Forall (fun e => plain_elem e = true)
                   (ps ++ host :: qs ++ [file])%list).
  { apply Forall_app. split; [exact Aps|]. constructor; [exact Hhost|].
    apply Forall_app. split; [exact Aqs|]. constructor; [exact Hfile|].
    constructor. }
  rewrite (path_Join_plain _ _ (ps ++ host :: qs ++ [file])%list Hne Hrel).
  - rewrite (Join_app ps) by (try assumption; discriminate).
    rewrite (Join_cons host) by (destruct qs; discriminate).
    rewrite (Join_app qs [file]) by (try assumption; discriminate).
    simpl. rewrite !sapp_assoc. reflexivity.
  - cbn [flat_map].
    change ("/" +:+ Join qs "/") with ("" +:+ String slash (Join qs "/")).
    rewrite Split_app_sep.
    rewrite (Split_Join_plain ps Hps Aps), (Split_Join_plain qs Hqs Aqs).
    rewrite (Split_plain host slash (plain_no_slash host Hhost)).
    rewrite (Split_plain file slash (plain_no_slash file Hfile)).
    rewrite List.app_nil_r.
    rewrite !List.filter_app. cbn [List.filter Split].
    unfold nonempty at 2 3 5. cbn [String.eqb negb app].
    rewrite (filter_plain ps Aps), (filter_plain qs Aqs).
    pose proof (plain_nonempty host Hhost) as Hh.
    pose proof (plain_nonempty file Hfile) as Hf.
    destruct (String.eqb_spec host ""); [congruence|].
    destruct (String.eqb_spec file ""); [congruence|].
    reflexivity.
  - destruct ps; [congruence|discriminate].
  - exact Hall.
Qed.

(** X22. The path under which a task stores the body is fixed by the
    method, the raw URL (and with it the URL parsed from it), the
    request body and the serialised header list, under one output
    directory: configurations that agree on these give the same path,
    byte for byte.  The path is what [path.Clean] makes of
    [prefix/host/normalisedPath/digest.body]: [digest] is the digest of
    method, raw URL, body and serialised headers put one after the
    other, written with two hexadecimal digits for a byte, and
    [normalisedPath] is the path of the URL with every maximal run of
    bytes outside [[a-zA-Z0-9/._-]] replaced by one dash.  When the prefix, the host
    and the normalised path are made of plain elements (none empty,
    none [.] or [..]) the cleaning changes nothing and the path is,
    letter for letter, the prefix, a slash, the host, the normalised
    path, a slash and the file name. *)
Theorem artifact_path_fixed_by_request (W : World) (c : Config)
  (method rawURL : string) (u : URL) :
  let digest :=
    sha1_Sum W (method +:+ rawURL +:+ requestBody c
                +:+ Join (headers c) ", ") in
  let file := hex digest +:+ ".body" in
  let p := artifact_path W c (prefix_of c) method rawURL u ".body" in
  (forall c' : Config,
     requestBody c' = requestBody c ->
     headerArgs_String (headers c') = headerArgs_String (headers c) ->
     outputDir c' = outputDir c ->
     artifact_path W c' (prefix_of c') method rawURL u ".body" = p)
  /\ (forall (req : Request) (resp : Response)
             (responseBody name data : string),
        req_URL req = u ->
        In (WriteFile name data)
           (events (persist W c method rawURL req resp responseBody)) ->
        name = p /\ data = responseBody)
  /\ p = Clean (prefix_of c +:+ "/" +:+ Hostname u +:+ "/"
                +:+ normalisePath u +:+ "/" +:+ file)
  /\ (String.length (hex digest) = 2 * String.length digest
      /\ forall_bytes is_hex_digit (hex digest) = true)
  /\ (forall t : string, RunsReplaced (Path u) t <-> t = normalisePath u)
  /\ (forall ps qs : list string,
        ps <> [] -> qs <> [] ->
        Forall (fun e => plain_elem e = true) ps ->
        Forall (fun e => plain_elem e = true) qs ->
        plain_elem (Hostname u) = true ->
        prefix_of c = Join ps "/" ->
        normalisePath u = "/" +:+ Join qs "/" ->
        p = prefix_of c +:+ "/" +:+ Hostname u +:+ normalisePath u
            +:+ "/" +:+ file).
Proof.
  cbv zeta. split; [|split; [|split; [|split; [|split]]]].
  - intros c' Hbody Hheaders Hdir.
    unfold artifact_path, hash, prefix_of.
    rewrite Hbody, Hheaders, Hdir. reflexivity.
  - intros req resp responseBody name data <- Hin.
    apply (persist_writes_body _ _ _ _ _ _ _ _ _ Hin).
  - unfold artifact_path.
    rewrite path_Join_Clean by apply prefix_of_nonempty. reflexivity.
  - apply hex_shape.
  - intros t. split; [apply RunsReplaced_unique|].
    intros ->. apply replace_runs_spec.
  - intros ps qs Hps Hqs Aps Aqs Hhost Hprefix Hnp.
    unfold artifact_path.
    apply (artifact_path_plain _ _ _ _ ps qs); try assumption.
    apply file_name_plain; [reflexivity|simpl; lia].
Qed.

(** The path for an ordinary URL. *)
Example path_of_ordinary_url :
  artifact_path (Sample.world "") (Sample.to_dir "out" []) "out" "GET"
    "http://example.test/a b/c"
    {| Hostname := "example.test"; Path := "/a b/c" |} ".body"
  = "out/example.test/a-b/c/ab09.body".
Proof. reflexivity. Qed.

(** Joining [out], [example.test], [/../../x] and a file name: cleaning
    resolves the two climbs against [example.test] and [out]. *)
Lemma path_Join_climbing (file : string) :
  plain_elem file = true ->
  path_Join ["out"; "example.test"; "/../../x"; file] = "x/" +:+ file.
Proof.
  intros Hfile.
  rewrite path_Join_Clean, Clean_Join by discriminate.
  change (HasPrefix "out" "/") with false.
  change (flat_map (fun x => Split x slash)
            ["out"; "example.test"; "/../../x"; file])
    with (["out"; "example.test"; ""; ".."; ".."; "x"]
          ++ (Split file slash ++ []))%list.
  rewrite List.app_nil_r.
  rewrite (Split_plain file slash (plain_no_slash file Hfile)).
  rewrite fold_left_app.
  change (fold_left (clean_step false)
            ["out"; "example.test"; ""; ".."; ".."; "x"] [])
    with ["x"].
  cbn [fold_left]. rewrite (clean_step_plain _ _ _ Hfile).
  unfold render. cbn [rev List.app Join].
  rewrite sapp_nil_l. reflexivity.
Qed.

(** C3. The comment of line 214 and the specification place the files
    of a task in [prefix/host/normalisedPath]; the [path.Join] of line
    217 cleans what it joins, [normalisePath] lets [..] through, and a
    URL path that climbs takes the file out of that directory.  For the
    URL [http://example.test/../../x] and the output directory [out],
    whatever the method, the body, the headers and the digest are: the
    normalised path is the path of the URL, the file is
    [x/digest.body], which is not [out/example.test/../../x/digest.body]
    and does not start with [out/]; and a run of the task makes the
    directory [x] and writes the body there. *)
Theorem climbing_url_leaves_output_directory (W : World) (c : Config)
  (method rawURL : string) :
  let u := {| Hostname := "example.test"; Path := "/../../x" |} in
  let file := hex (hash W c method rawURL) +:+ ".body" in
  let p := artifact_path W c "out" method rawURL u ".body" in
  normalisePath u = "/../../x"
  /\ p = "x/" +:+ file
  /\ p <> "out" +:+ "/" +:+ Hostname u +:+ normalisePath u +:+ "/" +:+ file
  /\ HasPrefix p "out/" = false
  /\ (let ev := events (fst (task (Sample.world "hi")
                                  (Sample.to_dir "out" []) "GET"
                                  "http://example.test/../../x")) in
      In (MkdirAll "x") ev
      /\ In (WriteFile "x/ab09.body" "hi") ev
      /\ In (Create "x/ab09.headers") ev
      /\ In (Stdout ("x/ab09.body: http://example.test/../../x 200" +:+ nl))
            ev).
Proof.
  cbv zeta.
  assert (Hp : artifact_path W c "out" method rawURL
                 {| Hostname := "example.test"; Path := "/../../x" |} ".body"
               = "x/" +:+ hex (hash W c method rawURL) +:+ ".body").
  { unfold artifact_path.
    change (normalisePath {| Hostname := "example.test";
                             Path := "/../../x" |}) with "/../../x".
    change (Hostname {| Hostname := "example.test"; Path := "/../../x" |})
      with "example.test".
    apply path_Join_climbing.
    apply file_name_plain; [reflexivity|simpl; lia]. }
  rewrite Hp.
  split; [reflexivity|]. split; [reflexivity|]. split; [discriminate|].
  split; [reflexivity|].
  vm_compute. tauto.
Qed.

Example normalisePath_runs :
  normalisePath {| Hostname := "h"; Path := "/a b?&c/d.e_f-g//~" |}
  = "/a-b-c/d.e_f-g//-".
Proof. reflexivity. Qed.

End ArtifactPath.


(** ** Building and sending the request *)

Module Requests.
Import GoString GoLib Fff Classifier TaskFacts.

Lemma requests_app (ev1 ev2 : list Event) :
  requests (ev1 ++ ev2) = (requests ev1 ++ requests ev2)%list.
Proof.
  induction ev1 as [|e ev1 IH]; [reflexivity|].
  destruct e; simpl; rewrite IH; reflexivity.
Qed.

Lemma outputs_app (ev1 ev2 : list Event) :
  outputs (ev1 ++ ev2) = (outputs ev1 ++ outputs ev2)%list.
Proof. apply List.filter_app. Qed.

(** Persisting sends no request. *)
Lemma persist_requests (W : World) (c : Config) (method rawURL : string)
  (req : Request) (resp : Response) (responseBody : string) :
  requests (events (persist W c method rawURL req resp responseBody)) = [].
Proof.
  unfold persist. cbv zeta.
  destruct (os_MkdirAll W _); [reflexivity|].
  destruct (ioutil_WriteFile W _ _); [reflexivity|].
  destruct (os_Create W _); [reflexivity|].
  destruct (io_Copy W _ _); reflexivity.
Qed.

(** The requests of a task: none, or the one built from the method as
    promoted, the raw URL, the body and the headers. *)
Lemma task_requests (W : World) (c : Config) (method rawURL : string) :
  let m := promote (requestBody c) method in
  match url_ParseRequestURI W rawURL, http_NewRequest W m rawURL with
  | None, inl u =>
      requests (events (fst (task W c method rawURL)))
      = [built_request c m rawURL u]
  | _, _ => requests (events (fst (task W c method rawURL))) = []
  end.
Proof.
  cbv zeta. set (m := promote (requestBody c) method).
  destruct (fetch_cases W c m rawURL)
    as [[err Hp]|[Hp [[err Hn]|[u [Hn [[err Hd]|[resp [Hd [[err Hb]|[b Hb]]]]]]]]]];
    rewrite Hp; try rewrite Hn.
  - rewrite (task_fetch_failed _ _ _ _ _ (fetch_bad_url _ _ _ _ _ Hp)).
    reflexivity.
  - rewrite (task_fetch_failed _ _ _ _ _ (fetch_bad_request _ _ _ _ _ Hp Hn)).
    reflexivity.
  - rewrite (task_fetch_failed _ _ _ _ _
               (fetch_no_response _ _ _ _ _ _ Hp Hn Hd)).
    reflexivity.
  - rewrite (task_fetch_failed _ _ _ _ _
               (fetch_no_body _ _ _ _ _ _ _ Hp Hn Hd Hb)).
    reflexivity.
  - pose proof (fetch_ok _ _ _ _ _ _ _ Hp Hn Hd Hb) as Hf.
    destruct (classify c b (resp_StatusCode resp)) eqn:Hv.
    + rewrite (task_kept _ _ _ _ _ _ _ _ Hf Hv).
      destruct (String.eqb (outputDir c) ""); [reflexivity|].
      unfold bind. subst m.
      pose proof (persist_requests W c (promote (requestBody c) method) rawURL
                    (built_request c (promote (requestBody c) method) rawURL u)
                    resp b) as Hq.
      destruct (persist W c _ rawURL _ resp b) as [ev' r].
      unfold events in *. cbn [fst] in *.
      rewrite requests_app, Hq. reflexivity.
    + rewrite (task_dropped _ _ _ _ _ _ _ _ Hf); [reflexivity|congruence].
    + rewrite (task_dropped _ _ _ _ _ _ _ _ Hf); [reflexivity|congruence].
    + rewrite (task_dropped _ _ _ _ _ _ _ _ Hf); [reflexivity|congruence].
    + rewrite (task_dropped _ _ _ _ _ _ _ _ Hf); [reflexivity|congruence].
    + rewrite (task_dropped _ _ _ _ _ _ _ _ Hf); [reflexivity|congruence].
Qed.





End Requests.


(** ** Summary mode *)

Module Summary.
Import GoString GoLib Fff Classifier TaskFacts Requests.

(** Splitting on a byte gives one fragment more than the byte occurs. *)
Lemma Split_length (s : string) (sep : ascii) :
  List.length (Split s sep) = S (count_byte sep s).
Proof.
  induction s as [|a s IH]; simpl; [reflexivity|].
  destruct (Ascii.eqb a sep); simpl; [rewrite IH; reflexivity|].
  destruct (Split s sep); simpl in *; [discriminate IH|exact IH].
Qed.

(** A request that brought a body has sent one request and put out
    nothing. *)
Lemma fetch_some (W : World) (c : Config) (method rawURL : string)
  (ev : list Event) (req : Request) (resp : Response) (responseBody : string) :
  fetch W c method rawURL = (ev, Some (req, resp, responseBody)) ->
  ev = [HTTPDo req]
  /\ client_Do W req = inl resp
  /\ resp_Body resp = inl responseBody.
Proof.
  destruct (fetch_cases W c method rawURL)
    as [[err Hp]|[Hp [[err Hn]|[u [Hn [[err Hd]|[resp' [Hd [[err Hb]|[b Hb]]]]]]]]]].
  - rewrite (fetch_bad_url _ _ _ _ _ Hp). discriminate.
  - rewrite (fetch_bad_request _ _ _ _ _ Hp Hn). discriminate.
  - rewrite (fetch_no_response _ _ _ _ _ _ Hp Hn Hd). discriminate.
  - rewrite (fetch_no_body _ _ _ _ _ _ _ Hp Hn Hd Hb). discriminate.
  - rewrite (fetch_ok _ _ _ _ _ _ _ Hp Hn Hd Hb).
    intros [= <- <- <- <-]. auto.
Qed.

(** Against C5 as written: in summary mode a response that the filter
    drops prints no line.  Here both [ignoreHTMLFiles] and
    [ignoreEmpty] are set and the server answers with an empty body. *)
Lemma dropped_response_prints_no_summary :
  ~ (forall (W : World) (c : Config) (method rawURL : string)
            (ev : list Event) (req : Request) (resp : Response)
            (responseBody : string),
       outputDir c = "" ->
       fetch W c (promote (requestBody c) method) rawURL
         = (ev, Some (req, resp, responseBody)) ->
       outputs (events (fst (task W c method rawURL)))
         = [Stdout (summary_line rawURL resp responseBody)]).
Proof.
  intros H.
  specialize (H (Sample.world "") Sample.skip_empty "GET"
                "http://example.test/a" _ _ _ _ eq_refl eq_refl).
  vm_compute in H. discriminate H.
Qed.

(** C5, amended.  In summary mode (no output directory) a task whose
    response reaches the filter prints exactly one line if the filter
    keeps the response and nothing if the filter drops it.  The line is
    [url,location,status: S,size: N,words: W,lines: L,type: T] with the
    [Location] header or the empty string, the status code, the number
    of bytes of the body, the number of fragments between the spaces of
    the body, the number of fragments between its newlines, and the
    [Content-Type] header; each count is one more than the number of
    separators. *)
Theorem summary_line_for_kept_only (W : World) (c : Config)
  (method rawURL : string) (ev : list Event) (req : Request)
  (resp : Response) (responseBody : string) :
  outputDir c = "" ->
  fetch W c (promote (requestBody c) method) rawURL
    = (ev, Some (req, resp, responseBody)) ->
  let words := List.length (Split responseBody " "%char) in
  let lines := List.length (Split responseBody "010"%char) in
  let line :=
    rawURL +:+ "," +:+ Header_Get (resp_Header resp) "Location"
    +:+ ",status: " +:+ itoa (resp_StatusCode resp)
    +:+ ",size: " +:+ itoa (Z.of_nat (String.length responseBody))
    +:+ ",words: " +:+ itoa (Z.of_nat words)
    +:+ ",lines: " +:+ itoa (Z.of_nat lines)
    +:+ ",type: " +:+ Header_Get (resp_Header resp) "Content-Type"
    +:+ nl in
  outputs (events (fst (task W c method rawURL))) =
    match classify c responseBody (resp_StatusCode resp) with
    | Keep => [Stdout line]
    | _ => []
    end
  /\ words = S (count_byte " "%char responseBody)
  /\ lines = S (count_byte "010"%char responseBody).
Proof.
  intros Hout Hfetch. cbv zeta.
  destruct (fetch_some _ _ _ _ _ _ _ _ Hfetch) as (-> & _ & _).
  split; [|split; apply Split_length].
  destruct (classify c responseBody (resp_StatusCode resp)) eqn:Hv.
  - rewrite (task_kept_summary _ _ _ _ _ _ _ _ Hout Hfetch Hv).
    reflexivity.
  - rewrite (task_dropped _ _ _ _ _ _ _ _ Hfetch); [reflexivity|congruence].
  - rewrite (task_dropped _ _ _ _ _ _ _ _ Hfetch); [reflexivity|congruence].
  - rewrite (task_dropped _ _ _ _ _ _ _ _ Hfetch); [reflexivity|congruence].
  - rewrite (task_dropped _ _ _ _ _ _ _ _ Hfetch); [reflexivity|congruence].
  - rewrite (task_dropped _ _ _ _ _ _ _ _ Hfetch); [reflexivity|congruence].
Qed.

(** A page of four words, with no filter set. *)
Lemma summary_line_for_kept_only_witness :
  outputDir Sample.no_filters = ""
  /\ outputs (events (fst (task (Sample.world "to be or not") Sample.no_filters
                             "GET" "http://example.test/a")))
     = [Stdout ("http://example.test/a,/next,status: 200,size: 12,"
                +:+ "words: 4,lines: 1,type: text/plain" +:+ nl)].
Proof.
  split; [reflexivity|].
  exact (proj1 (summary_line_for_kept_only (Sample.world "to be or not")
                  Sample.no_filters "GET" "http://example.test/a"
                  _ _ _ _ eq_refl eq_refl)).
Defined.

(** C10. In summary mode a kept response with a body of no bytes prints
    [size: 0], [words: 1] and [lines: 1]: splitting the empty string on
    a space or on a newline gives one fragment, the empty one. *)
Theorem empty_body_counts_one_word_one_line (W : World) (c : Config)
  (method rawURL : string) (ev : list Event) (req : Request)
  (resp : Response) :
  outputDir c = "" ->
  fetch W c (promote (requestBody c) method) rawURL
    = (ev, Some (req, resp, "")) ->
  classify c "" (resp_StatusCode resp) = Keep ->
  outputs (events (fst (task W c method rawURL))) =
    [Stdout (rawURL +:+ "," +:+ Header_Get (resp_Header resp) "Location"
             +:+ ",status: " +:+ itoa (resp_StatusCode resp)
             +:+ ",size: 0,words: 1,lines: 1,type: "
             +:+ Header_Get (resp_Header resp) "Content-Type" +:+ nl)]
  /\ Split "" " "%char = [""]
  /\ Split "" "010"%char = [""].
Proof.
  intros Hout Hfetch Hkeep.
  split; [|split; reflexivity].
  destruct (fetch_some _ _ _ _ _ _ _ _ Hfetch) as (-> & _ & _).
  rewrite (task_kept_summary _ _ _ _ _ _ _ _ Hout Hfetch Hkeep).
  reflexivity.
Qed.

(** A page of no bytes, with no filter set. *)
Lemma empty_body_counts_one_word_one_line_witness :
  outputDir Sample.no_filters = ""
  /\ classify Sample.no_filters "" 200 = Keep
  /\ outputs (events (fst (task (Sample.world "") Sample.no_filters
                             "GET" "http://example.test/a")))
     = [Stdout ("http://example.test/a,/next,status: 200,"
                +:+ "size: 0,words: 1,lines: 1,type: text/plain" +:+ nl)].
Proof.
  split; [reflexivity|]. split; [reflexivity|].
  exact (proj1 (empty_body_counts_one_word_one_line (Sample.world "")
                  Sample.no_filters "GET" "http://example.test/a"
                  _ _ _ eq_refl eq_refl eq_refl)).
Defined.

End Summary.


(** ** Tasks that fail *)

Module Failures.
Import GoString GoLib Fff Classifier TaskFacts Requests.

(** C6. A line that [url.ParseRequestURI] refuses makes a task that does
    nothing to the outside: no request, nothing on standard output or
    standard error, no directory and no file.  The task ends, so the
    loop goes on with the lines that follow and the counter of the wait
    group is back where it was: the final [wg.Wait()] is not held up. *)
Theorem unparsable_line_is_silent (W : World) (c : Config) (st : State)
  (rawURL : string) (rest : list string) (err : GoError) :
  url_ParseRequestURI W rawURL = Some err ->
  fst (task W c (method st) rawURL) = ([], None)
  /\ main_loop W c st (rawURL :: rest) =
       main_loop W c
         {| method := promote (requestBody c) (method st); wg := wg st |} rest
  /\ wg (snd (main_loop W c st [rawURL])) = wg st
  /\ (Wait_returns st = true ->
      Wait_returns (snd (main_loop W c st (rawURL :: rest))) = true).
Proof.
  intros Hbad.
  assert (Hsilent : fst (task W c (method st) rawURL) = ([], None)).
  { apply task_fetch_failed. eapply fetch_bad_url. exact Hbad. }
  split; [exact Hsilent|]. split.
  - rewrite main_loop_cons. cbv zeta. rewrite Hsilent.
    unfold events. simpl.
    destruct (main_loop W c _ rest). reflexivity.
  - split; [apply main_loop_wg|].
    unfold Wait_returns. rewrite main_loop_wg. auto.
Qed.

(** The line [not-a-url]. *)
Lemma unparsable_line_is_silent_witness :
  url_ParseRequestURI (Sample.world "hi") "not-a-url"
    = Some "invalid URI for request"
  /\ fst (task (Sample.world "hi") Sample.no_filters "GET" "not-a-url")
     = ([], None).
Proof.
  split; [reflexivity|].
  exact (proj1 (unparsable_line_is_silent (Sample.world "hi") Sample.no_filters
                  {| method := "GET"; wg := 0 |} "not-a-url" []
                  "invalid URI for request" eq_refl)).
Defined.

(** The line of a failed request, spelled out. *)
Lemma error_line_text (rawURL : string) (err : GoError) :
  error_line rawURL err =
  [Stdout (rawURL +:+ "," +:+ err
           +:+ ",status: 0,size: 0,words: 0,lines: 0,type: error" +:+ nl)].
Proof. reflexivity. Qed.

(** C7. When [http.NewRequest] fails, when [client.Do] fails, or when
    reading the body fails, the task prints one line on standard output,
    [rawURL,err,status: 0,size: 0,words: 0,lines: 0,type: error], with
    the text of the error where the location goes, and nothing else
    reaches standard output, standard error or the file system.  The
    task ends there; the loop goes on with the lines that follow, whose
    tasks run as they would have, and the counter of the wait group is
    back where it was. *)
Theorem failed_request_prints_one_error_line (W : World) (c : Config)
  (st : State) (rawURL : string) (rest : list string) (err : GoError) :
  let m := promote (requestBody c) (method st) in
  let line :=
    rawURL +:+ "," +:+ err
    +:+ ",status: 0,size: 0,words: 0,lines: 0,type: error" +:+ nl in
  url_ParseRequestURI W rawURL = None ->
  (http_NewRequest W m rawURL = inr err
   \/ exists u : URL,
        http_NewRequest W m rawURL = inl u
        /\ (client_Do W (built_request c m rawURL u) = inr err
            \/ exists resp : Response,
                 client_Do W (built_request c m rawURL u) = inl resp
                 /\ resp_Body resp = inr err)) ->
  outputs (events (fst (task W c (method st) rawURL))) = [Stdout line]
  /\ snd (fst (task W c (method st) rawURL)) = None
  /\ fst (main_loop W c st (rawURL :: rest)) =
       (events (fst (task W c (method st) rawURL))
        ++ fst (main_loop W c {| method := m; wg := wg st |} rest))%list
  /\ outputs (fst (main_loop W c st (rawURL :: rest))) =
       (Stdout line
        :: outputs (fst (main_loop W c {| method := m; wg := wg st |} rest)))
  /\ wg (snd (main_loop W c st (rawURL :: rest))) = wg st.
Proof.
  cbv zeta. intros Hp Hfail.
  assert (Hex : exists ev,
             fetch W c (promote (requestBody c) (method st)) rawURL
               = (ev, None)
             /\ outputs ev = error_line rawURL err).
  { destruct Hfail as [Hn|[u [Hn [Hd|[resp [Hd Hb]]]]]].
    - eexists. split; [apply (fetch_bad_request _ _ _ _ _ Hp Hn)|reflexivity].
    - eexists. split;
        [apply (fetch_no_response _ _ _ _ _ _ Hp Hn Hd)|reflexivity].
    - eexists. split;
        [apply (fetch_no_body _ _ _ _ _ _ _ Hp Hn Hd Hb)|reflexivity]. }
  destruct Hex as (ev & Hfetch & Hout).
  pose proof (task_fetch_failed _ _ _ _ _ Hfetch) as Htask.
  rewrite main_loop_cons. cbv zeta. cbn [fst snd].
  rewrite outputs_app, main_loop_wg, Htask. unfold events. cbn [fst snd].
  rewrite Hout, error_line_text. auto.
Qed.

(** A host that refuses the connection. *)
Lemma failed_request_prints_one_error_line_witness :
  url_ParseRequestURI (Sample.world "hi") "http://example.test/down" = None
  /\ outputs (events (fst (task (Sample.world "hi") Sample.no_filters
                             "GET" "http://example.test/down")))
     = [Stdout ("http://example.test/down,dial tcp: connection refused"
                +:+ ",status: 0,size: 0,words: 0,lines: 0,type: error"
                +:+ nl)].
Proof.
  split; [reflexivity|].
  refine (proj1 (failed_request_prints_one_error_line (Sample.world "hi")
                   Sample.no_filters {| method := "GET"; wg := 0 |}
                   "http://example.test/down" []
                   "dial tcp: connection refused" eq_refl _)).
  right. exists {| Hostname := "example.test"; Path := "/down" |}.
  split; [reflexivity|]. left. reflexivity.
Defined.

(** Four lines, one after the other: a line that does not parse, a host
    that is down, a body that breaks off, and a page. *)
Example failures_do_not_stop_the_loop :
  outputs (fst (main_loop (Sample.world "hi") Sample.no_filters
                  {| method := "GET"; wg := 0 |}
                  ["not-a-url"; "http://example.test/down";
                   "http://example.test/cut"; "http://example.test/a"]))
  = [Stdout ("http://example.test/down,dial tcp: connection refused,"
             +:+ "status: 0,size: 0,words: 0,lines: 0,type: error" +:+ nl);
     Stdout ("http://example.test/cut,unexpected EOF,"
             +:+ "status: 0,size: 0,words: 0,lines: 0,type: error" +:+ nl);
     Stdout ("http://example.test/a,/next,"
             +:+ "status: 200,size: 2,words: 1,lines: 1,type: text/plain"
             +:+ nl)].
Proof. reflexivity. Qed.

End Failures.


(** ** The transcript of a response *)

Module Transcript.
Import GoString GoLib Fff PathFacts Classifier TaskFacts Requests Sample.

Lemma append_value_lookup (h : Header) (key value k : string) :
  default [] (append_value h key value !! k) =
  (default [] (h !! k) ++ if String.eqb key k then [value] else [])%list.
Proof.
  unfold append_value. destruct (String.eqb_spec key k) as [->|Hne].
  - rewrite lookup_insert_eq. reflexivity.
  - rewrite lookup_insert_ne by exact Hne. rewrite app_nil_r. reflexivity.
Qed.

(** The values under a name are those the lines gave it, in order. *)
Lemma fold_add_line_values (lines : list (string * string)) (k : string) :
  forall h : Header,
    default [] (fold_left add_line lines h !! k) =
    (default [] (h !! k) ++ values_of k lines)%list.
Proof.
  induction lines as [|[key value] lines IH]; intros h; simpl.
  - rewrite app_nil_r. reflexivity.
  - rewrite IH. unfold add_line. simpl. rewrite append_value_lookup.
    unfold values_of. simpl.
    destruct (String.eqb key k); simpl; rewrite <- app_assoc; reflexivity.
Qed.

Lemma fold_add_line_dom (lines : list (string * string)) :
  forall (h : Header) (k : string),
    k ∈ dom (fold_left add_line lines h) <-> k ∈ dom h \/ In k (map fst lines).
Proof.
  induction lines as [|[key value] lines IH]; intros h k; simpl.
  - tauto.
  - rewrite IH. unfold add_line, append_value. simpl.
    rewrite dom_insert, elem_of_union, elem_of_singleton.
    intuition congruence.
Qed.

Lemma header_of_lines_values (lines : list (string * string)) (k : string) :
  default [] (header_of_lines lines !! k) = values_of k lines.
Proof.
  unfold header_of_lines.
  rewrite fold_add_line_values, lookup_empty. reflexivity.
Qed.

Lemma header_of_lines_dom (lines : list (string * string)) (k : string) :
  k ∈ dom (header_of_lines lines) <-> In k (map fst lines).
Proof.
  unfold header_of_lines.
  rewrite fold_add_line_dom, dom_empty, elem_of_empty. tauto.
Qed.


Lemma values_of_lines_of (k : string) (lines : list (string * string)) :
  map (header_line k) (values_of k lines) = map wire_line (lines_of k lines).
Proof.
  unfold values_of, lines_of.
  induction lines as [|[key value] lines IH]; simpl; [reflexivity|].
  destruct (String.eqb_spec key k) as [->|Hne]; simpl; [|exact IH].
  rewrite IH. reflexivity.
Qed.

(** A name that is not the one of a line does not see that line. *)
Lemma lines_of_skip (kv : string * string) (lines : list (string * string))
  (ks : list string) :
  ~ In (fst kv) ks ->
  flat_map (fun k => lines_of k (kv :: lines)) ks
  = flat_map (fun k => lines_of k lines) ks.
Proof.
  induction ks as [|k ks IH]; cbn [flat_map]; [reflexivity|]. intros Hnot.
  rewrite IH by (intros H; apply Hnot; right; exact H). f_equal.
  unfold lines_of. cbn [List.filter].
  destruct (String.eqb_spec (fst kv) k) as [Heq|Hne]; [|reflexivity].
  exfalso. apply Hnot. left. symmetry. exact Heq.
Qed.

(** Grouping the lines by name, each name once, loses and repeats
    nothing. *)
Lemma lines_grouped (lines : list (string * string)) :
  forall ks : list string,
    List.NoDup ks ->
    (forall kv, In kv lines -> In (fst kv) ks) ->
    Permutation (flat_map (fun k => lines_of k lines) ks) lines.
Proof.
  induction lines as [|kv lines IH]; intros ks Hnd Hall.
  - induction ks as [|k ks IHks]; cbn [flat_map]; [constructor|].
    apply IHks; [inversion Hnd; assumption|intros kv []].
  - destruct (in_split (fst kv) ks (Hall kv (or_introl eq_refl)))
      as (l1 & l2 & ->).
    pose proof (NoDup_remove l1 l2 (fst kv) Hnd) as [Hnd' Hnot].
    assert (H1 : ~ In (fst kv) l1) by (intros H; apply Hnot, in_or_app; auto).
    assert (H2 : ~ In (fst kv) l2) by (intros H; apply Hnot, in_or_app; auto).
    assert (IH' := IH (l1 ++ fst kv :: l2)%list Hnd
                     (fun kv' Hin => Hall kv' (or_intror Hin))).
    rewrite flat_map_app. rewrite flat_map_app in IH'.
    cbn [flat_map] in IH' |- *.
    rewrite (lines_of_skip kv lines l1 H1), (lines_of_skip kv lines l2 H2).
    assert (Hhead : lines_of (fst kv) (kv :: lines)
                    = kv :: lines_of (fst kv) lines).
    { unfold lines_of. cbn [List.filter]. rewrite String.eqb_refl.
      reflexivity. }
    rewrite Hhead. cbn [app].
    rewrite <- Permutation_middle. constructor. exact IH'.
Qed.

Lemma flat_map_wire (lines : list (string * string)) (ks : list string) :
  flat_map (fun k => map wire_line (lines_of k lines)) ks
  = map wire_line (flat_map (fun k => lines_of k lines) ks).
Proof.
  induction ks as [|k ks IH]; simpl; [reflexivity|].
  rewrite map_app, IH. reflexivity.
Qed.

(** What the [range] writes for a header map filled from [lines]. *)
Lemma header_lines_grouped (order : list string)
  (lines : list (string * string)) :
  header_lines order (header_of_lines lines)
  = flat_map (fun k => map wire_line (lines_of k lines)) order.
Proof.
  unfold header_lines.
  induction order as [|k order IH]; simpl; [reflexivity|].
  rewrite IH, header_of_lines_values, values_of_lines_of. reflexivity.
Qed.

(** What is copied into a file by [persist] is the transcript, and the
    file is the [.headers] one. *)
Lemma persist_copies_transcript (W : World) (c : Config)
  (method rawURL : string) (req : Request) (resp : Response)
  (responseBody name data : string) :
  In (Copy name data)
     (events (persist W c method rawURL req resp responseBody)) ->
  name = artifact_path W c (prefix_of c) method rawURL (req_URL req) ".headers"
  /\ data = transcript W c method rawURL resp.
Proof.
  unfold persist. cbv zeta.
  destruct (os_MkdirAll W _);
    [|destruct (ioutil_WriteFile W _ _);
      [|destruct (os_Create W _); [|destruct (io_Copy W _ _)]]];
    unfold events; cbn; intros Hin;
    repeat (destruct Hin as [Hin|Hin]; [try discriminate Hin|]);
    try contradiction;
    inversion Hin; auto.
Qed.

(** Against C8 as written: the header lines do not follow the order in
    which the headers arrived.  The response gives
    [Location] and then [Content-Type]; the [range] of this world visits
    [Content-Type] first. *)
Lemma header_lines_leave_arrival_order :
  ~ (forall (W : World) (lines : list (string * string)),
       range_visits_each_key_once W ->
       header_lines (range_Header W (header_of_lines lines))
                    (header_of_lines lines)
       = map wire_line lines).
Proof.
  intros H.
  specialize (H (Sample.world "")
                [("Location", "/next"); ("Content-Type", "text/plain")]
                (fun h => Permutation_refl _)).
  vm_compute in H. discriminate H.
Qed.

(** C8, amended.  The text copied into the [.headers] file ends with the
    status line [< PROTO STATUS] followed by the header lines
    [< name: value].  Every value of every header of the response has
    exactly one line; the lines of one name stand together, in the
    order in which the response gave its values; the names come in the
    order in which the [range] visits the map, each name once, which
    need not be the order of arrival. *)
Theorem transcript_ends_with_grouped_headers (W : World) (c : Config)
  (method rawURL : string) (req : Request) (resp : Response)
  (responseBody : string) (lines : list (string * string)) :
  range_visits_each_key_once W ->
  resp_Header resp = header_of_lines lines ->
  let order := range_Header W (resp_Header resp) in
  let written := flat_map (fun k => map wire_line (lines_of k lines)) order in
  (forall name data : string,
     In (Copy name data)
        (events (persist W c method rawURL req resp responseBody)) ->
     data = transcript W c method rawURL resp)
  /\ (exists front : string,
        transcript W c method rawURL resp =
        front +:+ ("< " +:+ resp_Proto resp +:+ " " +:+ resp_Status resp
                   +:+ nl)
              +:+ concat written)
  /\ List.NoDup order
  /\ (forall k : string, In k order <-> In k (map fst lines))
  /\ Permutation written (map wire_line lines).
Proof.
  intros Hrange Hlines. cbv zeta.
  pose proof (Hrange (resp_Header resp)) as Hperm.
  assert (Hnd : List.NoDup (range_Header W (resp_Header resp))).
  { apply NoDup_ListNoDup. rewrite Hperm. apply NoDup_elements. }
  assert (Hkeys : forall k, In k (range_Header W (resp_Header resp))
                            <-> In k (map fst lines)).
  { intros k. rewrite <- header_of_lines_dom, <- Hlines.
    rewrite <- list_elem_of_In, Hperm, elem_of_elements. reflexivity. }
  split; [|split; [|split; [exact Hnd|split; [exact Hkeys|]]]].
  - intros name data Hin.
    apply (persist_copies_transcript _ _ _ _ _ _ _ _ _ Hin).
  - unfold transcript.
    set (order := range_Header W (resp_Header resp)).
    rewrite Hlines, header_lines_grouped.
    eexists. rewrite <- !sapp_assoc. reflexivity.
  - rewrite flat_map_wire. apply Permutation_map.
    apply lines_grouped; [exact Hnd|].
    intros kv Hin. apply Hkeys. apply in_map. exact Hin.
Qed.

(** A response with two headers. *)
Lemma transcript_ends_with_grouped_headers_witness :
  range_visits_each_key_once (Sample.world "hi")
  /\ resp_Header (Sample.ok_response "hi")
     = header_of_lines [("Content-Type", "text/plain"); ("Location", "/next")]
  /\ Permutation
       (flat_map
          (fun k =>
             map wire_line
               (lines_of k [("Content-Type", "text/plain");
                            ("Location", "/next")]))
          (range_Header (Sample.world "hi")
                        (resp_Header (Sample.ok_response "hi"))))
       (map wire_line [("Content-Type", "text/plain"); ("Location", "/next")]).
Proof.
  split; [intros h; apply Permutation_refl|]. split; [reflexivity|].
  exact (proj2 (proj2 (proj2 (proj2
    (transcript_ends_with_grouped_headers (Sample.world "hi")
       (Sample.to_dir "out" []) "GET" "http://example.test/a"
       (built_request (Sample.to_dir "out" []) "GET" "http://example.test/a"
          {| Hostname := "example.test"; Path := "/a" |})
       (Sample.ok_response "hi") "hi"
       [("Content-Type", "text/plain"); ("Location", "/next")]
       (fun h => Permutation_refl _) eq_refl))))).
Defined.




End Transcript.


(** ** Request headers *)

Module RequestHeaders.
Import GoString GoLib Fff Classifier TaskFacts Requests.

(** An entry [name:value] whose name has no colon splits into the name
    and the value. *)
Lemma SplitN2_name_value (name value : string) :
  count_byte ":"%char name = 0 ->
  SplitN2 (name +:+ ":" +:+ value) ":"%char = [name; value].
Proof.
  unfold SplitN2. induction name as [|a name IH]; simpl; [reflexivity|].
  destruct (Ascii.eqb a ":"%char); [discriminate|]. intros Hcount.
  specialize (IH Hcount).
  destruct (cut (name +:+ ":" +:+ value) ":"%char) as [before [after|]];
    congruence.
Qed.

Lemma add_header_set (h : Header) (entry name value : string) :
  SplitN2 entry ":"%char = [name; value] ->
  add_header h entry = <[CanonicalMIMEHeaderKey name := [value]]> h.
Proof. unfold add_header, Header_Set. intros ->. reflexivity. Qed.

(** An entry leaves alone every name but its own. *)
Lemma add_header_other (h : Header) (entry key : string) :
  (forall name value,
     SplitN2 entry ":"%char = [name; value] ->
     CanonicalMIMEHeaderKey name <> key) ->
  add_header h entry !! key = h !! key.
Proof.
  unfold add_header, Header_Set, SplitN2.
  destruct (cut entry ":"%char) as [before [after|]]; intros Hother;
    [|reflexivity].
  apply lookup_insert_ne. eapply Hother. reflexivity.
Qed.

Lemma add_headers_other (hs : headerArgs) (key : string) :
  Forall (fun entry =>
            forall name value,
              SplitN2 entry ":"%char = [name; value] ->
              CanonicalMIMEHeaderKey name <> key) hs ->
  forall h : Header, add_headers hs h !! key = h !! key.
Proof.
  unfold add_headers.
  induction 1 as [|entry hs Hentry _ IH]; intros h; simpl; [reflexivity|].
  rewrite IH. apply add_header_other. exact Hentry.
Qed.

Lemma add_headers_last (hs1 hs2 : headerArgs) (entry name value : string)
  (h : Header) :
  SplitN2 entry ":"%char = [name; value] ->
  Forall (fun later =>
            forall n v,
              SplitN2 later ":"%char = [n; v] ->
              CanonicalMIMEHeaderKey n <> CanonicalMIMEHeaderKey name) hs2 ->
  add_headers (hs1 ++ entry :: hs2)%list h !! CanonicalMIMEHeaderKey name
    = Some [value].
Proof.
  intros Hentry Hlater. unfold add_headers.
  rewrite fold_left_app. simpl.
  change (add_headers hs2 (add_header (fold_left add_header hs1 h) entry)
            !! CanonicalMIMEHeaderKey name = Some [value]).
  rewrite (add_headers_other _ _ Hlater).
  rewrite (add_header_set _ _ _ _ Hentry).
  apply lookup_insert_eq.
Qed.

(** The flag collects its values in the order given. *)
Lemma headerArgs_Set_all (vals : list string) :
  forall h : headerArgs, fold_left headerArgs_Set vals h = (h ++ vals)%list.
Proof.
  induction vals as [|v vals IH]; intros h; simpl.
  - symmetry. apply app_nil_r.
  - rewrite IH. unfold headerArgs_Set. rewrite <- app_assoc. reflexivity.
Qed.

(** C9. Let the header list hold an entry [name1:value1] and, later, an
    entry [name2:value2] with the same name (the same after
    canonicalisation, as when the spellings are equal), and after it no
    entry of that name.  Then the request carries for that name the one
    value [value2]: the earlier value is replaced, not kept beside it.
    The list of the configuration still holds every entry, in the order
    in which the flags gave them. *)
Theorem last_header_of_a_name_wins (c : Config) (method rawURL : string)
  (u : URL) (hs1 hs2 hs3 : headerArgs)
  (name1 value1 name2 value2 : string) :
  count_byte ":"%char name1 = 0 ->
  count_byte ":"%char name2 = 0 ->
  CanonicalMIMEHeaderKey name1 = CanonicalMIMEHeaderKey name2 ->
  headers c
    = (hs1 ++ (name1 +:+ ":" +:+ value1) :: hs2
           ++ (name2 +:+ ":" +:+ value2) :: hs3)%list ->
  Forall (fun later =>
            forall n v,
              SplitN2 later ":"%char = [n; v] ->
              CanonicalMIMEHeaderKey n <> CanonicalMIMEHeaderKey name2) hs3 ->
  let req := built_request c method rawURL u in
  req_Header req !! CanonicalMIMEHeaderKey name1 = Some [value2]
  /\ Header_Get (req_Header req) name1 = value2
  /\ Header_Get (req_Header req) name2 = value2
  /\ (forall vals : list string, fold_left headerArgs_Set vals [] = vals)
  /\ In (name1 +:+ ":" +:+ value1) (headers c)
  /\ In (name2 +:+ ":" +:+ value2) (headers c).
Proof.
  intros Hn1 Hn2 Hsame Hlist Hlater. cbv zeta.
  assert (Hlook : req_Header (built_request c method rawURL u)
                    !! CanonicalMIMEHeaderKey name2 = Some [value2]).
  { unfold built_request; simpl. rewrite Hlist.
    rewrite app_comm_cons, app_assoc.
    apply add_headers_last; [|exact Hlater].
    apply SplitN2_name_value. exact Hn2. }
  split; [rewrite Hsame; exact Hlook|].
  unfold Header_Get. rewrite Hsame, Hlook.
  split; [reflexivity|]. split; [reflexivity|]. split.
  - intros vals. apply (headerArgs_Set_all vals []).
  - rewrite Hlist. split.
    + apply in_or_app. right. left. reflexivity.
    + apply in_or_app. right. right. apply in_or_app. right. left.
      reflexivity.
Qed.

(** [X-Token] given twice, in two spellings. *)
Lemma last_header_of_a_name_wins_witness :
  headers (Sample.with_body "data")
    = ["X-Token: one"; "no colon here"; "x-token:two"]
  /\ CanonicalMIMEHeaderKey "X-Token" = CanonicalMIMEHeaderKey "x-token"
  /\ req_Header (built_request (Sample.with_body "data") "POST"
                   "http://example.test/a"
                   {| Hostname := "example.test"; Path := "/a" |})
       !! "X-Token" = Some ["two"].
Proof.
  split; [reflexivity|]. split; [reflexivity|].
  exact (proj1 (last_header_of_a_name_wins (Sample.with_body "data") "POST"
                  "http://example.test/a"
                  {| Hostname := "example.test"; Path := "/a" |}
                  [] ["no colon here"] [] "X-Token" " one" "x-token" "two"
                  eq_refl eq_refl eq_refl eq_refl ltac:(constructor))).
Defined.

End RequestHeaders.


(** ** The status flag *)

Module StatusFlag.
Import GoString GoLib Fff PathFacts Classifier Flags.

Lemma Includes_app (s1 s2 : statusArgs) (x : Z) :
  Includes (s1 ++ s2)%list x = Includes s1 x || Includes s2 x.
Proof.
  induction s1 as [|status s1 IH]; [reflexivity|]. simpl.
  destruct (status =? x)%Z; [reflexivity|exact IH].
Qed.

(** [Set] only adds to the end of the list. *)
Lemma add_status_fold (items : list string) :
  forall s : statusArgs,
    fold_left add_status items s = (s ++ fold_left add_status items [])%list.
Proof.
  induction items as [|item items IH]; intros s; simpl.
  - symmetry. apply List.app_nil_r.
  - rewrite IH, (IH (add_status [] item)). unfold add_status.
    destruct (Atoi item); [|reflexivity].
    rewrite <- List.app_assoc. reflexivity.
Qed.

(** *** Numbers as [%d] prints them are numbers as [Atoi] reads them *)

Lemma digits_no_sign (d : Decimal.uint) :
  d <> Decimal.Nil ->
  exists c r,
    NilEmpty.string_of_uint d = String c r
    /\ Ascii.eqb c "-"%char = false /\ Ascii.eqb c "+"%char = false.
Proof.
  destruct d; [congruence|..]; intros _; eexists; eexists;
    (split; [reflexivity|split; reflexivity]).
Qed.

Lemma string_of_uint_nonnil (d : Decimal.uint) :
  d <> Decimal.Nil -> NilZero.string_of_uint d = NilEmpty.string_of_uint d.
Proof. destruct d; [congruence|reflexivity..]. Qed.

Lemma of_uint_to_uint (p : positive) : Z.of_uint (Pos.to_uint p) = Z.pos p.
Proof. unfold Z.of_uint. rewrite DecimalPos.Unsigned.of_to. reflexivity. Qed.

Lemma Atoi_itoa (z : Z) : in_int_range z = true -> Atoi (itoa z) = Some z.
Proof.
  intros Hrange. unfold itoa. destruct z as [|p|p]; [reflexivity|..];
    pose proof (DecimalPos.Unsigned.to_uint_nonnil p) as Hnn;
    cbn [Z.to_int NilZero.string_of_int].
  - rewrite (string_of_uint_nonnil _ Hnn).
    destruct (digits_no_sign _ Hnn) as (c & r & Hs & Hminus & Hplus).
    unfold Atoi. rewrite Hs, Hminus, Hplus, <- Hs.
    unfold parse_digits.
    rewrite <- (string_of_uint_nonnil _ Hnn), (NilZero.usu _ Hnn).
    rewrite of_uint_to_uint, Hrange. reflexivity.
  - unfold Atoi. rewrite Ascii.eqb_refl. unfold parse_digits.
    rewrite (NilZero.usu _ Hnn), of_uint_to_uint.
    change (- Z.pos p)%Z with (Z.neg p). rewrite Hrange. reflexivity.
Qed.

Lemma digits_no_comma (d : Decimal.uint) :
  count_byte ","%char (NilEmpty.string_of_uint d) = 0.
Proof. induction d; simpl; auto. Qed.

Lemma itoa_no_comma (z : Z) : count_byte ","%char (itoa z) = 0.
Proof.
  unfold itoa. destruct z as [|p|p]; [reflexivity|..];
    pose proof (DecimalPos.Unsigned.to_uint_nonnil p) as Hnn;
    cbn [Z.to_int NilZero.string_of_int];
    rewrite (string_of_uint_nonnil _ Hnn).
  - apply digits_no_comma.
  - cbn [count_byte]. rewrite digits_no_comma. reflexivity.
Qed.

(** Elements free of the separator come back from the joined string. *)
Lemma Split_Join_sep (sep : ascii) (es : list string) :
  es <> [] ->
  Forall (fun e => count_byte sep e = 0) es ->
  Split (Join es (String sep "")) sep = es.
Proof.
  intros Hne Hall. induction Hall as [|e es He Hall IH]; [congruence|].
  destruct es as [|e' es].
  - simpl. apply Split_plain. exact He.
  - rewrite Join_cons by discriminate.
    change (String sep "" +:+ Join (e' :: es) (String sep ""))
      with (String sep (Join (e' :: es) (String sep ""))).
    rewrite Split_app_sep, IH by discriminate.
    rewrite (Split_plain e sep He). reflexivity.
Qed.

Lemma add_status_itoa (codes : list Z) :
  Forall (fun z => in_int_range z = true) codes ->
  forall s : statusArgs,
    fold_left add_status (map itoa codes) s = (s ++ codes)%list.
Proof.
  induction 1 as [|z codes Hz _ IH]; intros s; simpl.
  - symmetry. apply List.app_nil_r.
  - rewrite IH. unfold add_status. rewrite (Atoi_itoa z Hz).
    rewrite <- List.app_assoc. reflexivity.
Qed.

(** X1. [statusArgs.Set] reads back what [%d] and commas write: given
    the decimal forms of a list of status codes (each an [int])
    separated by commas, it adds exactly those codes, in their order,
    to the end of the list. *)
Theorem statusArgs_Set_reads_comma_list (s : statusArgs) (codes : list Z) :
  Forall (fun z => in_int_range z = true) codes ->
  statusArgs_Set s (Join (map itoa codes) ",") = (s ++ codes)%list.
Proof.
  intros Hcodes. unfold statusArgs_Set.
  destruct codes as [|z codes].
  - simpl. symmetry. apply List.app_nil_r.
  - rewrite (Split_Join_sep ","%char (map itoa (z :: codes))).
    + apply add_status_itoa. exact Hcodes.
    + discriminate.
    + apply Forall_map. apply Forall_forall. intros x _.
      apply itoa_no_comma.
Qed.

(** The codes 200, 301 and -1. *)
Lemma statusArgs_Set_reads_comma_list_witness :
  Forall (fun z => in_int_range z = true) [200; 301; -1]%Z
  /\ statusArgs_Set [404%Z] "200,301,-1" = [404; 200; 301; -1]%Z.
Proof.
  assert (H : Forall (fun z => in_int_range z = true) [200; 301; -1]%Z)
    by (repeat constructor).
  split; [exact H|].
  exact (statusArgs_Set_reads_comma_list [404%Z] [200; 301; -1]%Z H).
Defined.

(** X2. [statusArgs.Set] never removes or reorders what the list holds:
    the new list is the old one followed by what the value adds.
    Afterwards [Includes] finds a code exactly when the list held it
    before or some item between the commas of the value is that number;
    items that are not numbers count for nothing. *)
Theorem statusArgs_Set_then_Includes (s : statusArgs) (val : string) (x : Z) :
  statusArgs_Set s val = (s ++ statusArgs_Set [] val)%list
  /\ Includes (statusArgs_Set s val) x
     = Includes s x || existsb (item_is x) (Split val ","%char).
Proof.
  unfold statusArgs_Set.
  split; [apply add_status_fold|].
  rewrite add_status_fold, Includes_app. f_equal.
  generalize (Split val ","%char) as items.
  induction items as [|item items IH]; [reflexivity|]. simpl.
  rewrite add_status_fold, Includes_app, IH. f_equal.
  unfold add_status, item_is. destruct (Atoi item) as [z|]; [|reflexivity].
  simpl. destruct (z =? x)%Z; reflexivity.
Qed.

(** X3. A value none of whose items is a number adds nothing, without
    any error; when it is the only value given for [matchCode] (or for
    [filterCode]) the list stays empty and the status test of the filter
    passes every status. *)
Theorem statusArgs_Set_without_numbers (val : string) (c : Config)
  (StatusCode : Z) :
  (forall item, In item (Split val ","%char) -> Atoi item = None) ->
  (forall s : statusArgs, statusArgs_Set s val = s)
  /\ (matchCode c = statusArgs_Set [] val ->
      pred_matchCode c StatusCode = false)
  /\ (filterCode c = statusArgs_Set [] val ->
      pred_filterCode c StatusCode = false).
Proof.
  intros Hnone.
  assert (Hsame : forall s : statusArgs, statusArgs_Set s val = s).
  { unfold statusArgs_Set. revert Hnone.
    generalize (Split val ","%char) as items.
    induction items as [|item items IH]; intros Hnone s; [reflexivity|].
    simpl. unfold add_status at 2.
    rewrite (Hnone item (or_introl eq_refl)).
    apply IH. intros i Hi. apply Hnone. right. exact Hi. }
  split; [exact Hsame|].
  split; intros Hc; [unfold pred_matchCode|unfold pred_filterCode];
    rewrite Hc, Hsame; reflexivity.
Qed.

(** The value [2OO,abc], with letters where digits were meant. *)
Lemma statusArgs_Set_without_numbers_witness :
  (forall item, In item (Split "2OO,abc" ","%char) -> Atoi item = None)
  /\ statusArgs_Set [] "2OO,abc" = [].
Proof.
  assert (H : forall item,
             In item (Split "2OO,abc" ","%char) -> Atoi item = None).
  { intros item [<-|[<-|[]]]; reflexivity. }
  split; [exact H|].
  exact (proj1 (statusArgs_Set_without_numbers "2OO,abc" Sample.no_filters 0 H)
           []).
Defined.

End StatusFlag.


(** ** [normalisePath] *)

Module Normalise.
Import GoString GoLib Fff PathFacts Flags.

Lemma replace_runs_in_class (s : string) :
  forall in_run, forall_bytes path_byte (replace_runs in_run s) = true.
Proof.
  induction s as [|c s IH]; intros in_run; [reflexivity|]. simpl.
  destruct (path_byte c) eqn:Hc.
  - simpl. rewrite Hc. apply IH.
  - destruct in_run; [apply IH|]. simpl. apply IH.
Qed.

Lemma replace_runs_length (s : string) :
  forall in_run,
    String.length (replace_runs in_run s) <= String.length s.
Proof.
  induction s as [|c s IH]; intros in_run; [reflexivity|]. simpl.
  destruct (path_byte c); [simpl; specialize (IH false); lia|].
  destruct in_run; [specialize (IH true); lia|].
  simpl. specialize (IH true). lia.
Qed.

Lemma slash_in_class (c : ascii) :
  Ascii.eqb c slash = true -> path_byte c = true.
Proof. intros H. apply Ascii.eqb_eq in H as ->. reflexivity. Qed.

Lemma replace_runs_slashes (s : string) :
  forall in_run,
    count_byte slash (replace_runs in_run s) = count_byte slash s.
Proof.
  induction s as [|c s IH]; intros in_run; [reflexivity|]. simpl.
  destruct (path_byte c) eqn:Hc.
  - simpl. rewrite IH. reflexivity.
  - assert (Hs : Ascii.eqb c slash = false).
    { destruct (Ascii.eqb c slash) eqn:E; [|reflexivity].
      rewrite (slash_in_class c E) in Hc. discriminate Hc. }
    rewrite Hs. destruct in_run; [apply IH|]. simpl. apply IH.
Qed.

(** A string of the class is left as it is. *)
Lemma replace_runs_fixed (s : string) :
  forall_bytes path_byte s = true ->
  forall in_run, replace_runs in_run s = s.
Proof.
  induction s as [|c s IH]; [reflexivity|]. simpl. intros Hall in_run.
  apply andb_true_iff in Hall as [-> Hall]. rewrite IH by exact Hall.
  reflexivity.
Qed.

(** X4. The result of [normalisePath] has only bytes of
    [[a-zA-Z0-9/._-]], is never longer than the path of the URL, and has
    as many slashes as it: the depth of the path is kept. *)
Theorem normalisePath_stays_in_class (u : URL) :
  forall_bytes path_byte (normalisePath u) = true
  /\ String.length (normalisePath u) <= String.length (Path u)
  /\ count_byte slash (normalisePath u) = count_byte slash (Path u).
Proof.
  unfold normalisePath.
  split; [apply replace_runs_in_class|].
  split; [apply replace_runs_length|apply replace_runs_slashes].
Qed.

(** X5. [normalisePath] leaves alone a path made of bytes of the class,
    so normalising twice is normalising once. *)
Theorem normalisePath_idempotent (u : URL) :
  (forall_bytes path_byte (Path u) = true -> normalisePath u = Path u)
  /\ normalisePath {| Hostname := Hostname u; Path := normalisePath u |}
     = normalisePath u.
Proof.
  unfold normalisePath. split.
  - intros Hall. apply replace_runs_fixed. exact Hall.
  - cbn [Path]. apply replace_runs_fixed. apply replace_runs_in_class.
Qed.

(** The elements between the slashes are rewritten one by one; only the
    first can begin inside a run. *)
Lemma replace_runs_by_element (s : string) :
  forall in_run,
    Split (replace_runs in_run s) slash =
    match Split s slash with
    | x :: rest => replace_runs in_run x :: map (replace_runs false) rest
    | [] => []
    end.
Proof.
  induction s as [|c s IH]; intros in_run; [reflexivity|].
  cbn [replace_runs Split].
  destruct (Ascii.eqb c slash) eqn:Hs.
  - rewrite (slash_in_class c Hs). cbn [Split]. rewrite Hs, IH.
    pose proof (Split_nonempty s slash) as Hne.
    destruct (Split s slash) as [|x rest]; [congruence|]. reflexivity.
  - pose proof (Split_nonempty s slash) as Hne.
    destruct (path_byte c) eqn:Hc.
    + cbn [Split]. rewrite Hs, IH.
      destruct (Split s slash) as [|x rest]; [congruence|].
      simpl. rewrite Hc. reflexivity.
    + destruct in_run.
      * rewrite IH.
        destruct (Split s slash) as [|x rest]; [congruence|].
        simpl. rewrite Hc. reflexivity.
      * cbn [Split]. change (Ascii.eqb "-" slash) with false. cbn iota.
        rewrite IH.
        destruct (Split s slash) as [|x rest]; [congruence|].
        simpl. rewrite Hc. reflexivity.
Qed.

(** X6. [normalisePath] works element by element: the elements of its
    result are the elements of the path, each with its runs replaced.
    An element [..] (like [.]) is made of bytes of the class and comes
    out as it went in, so the place it holds in the path is not
    neutralised. *)
Theorem normalisePath_by_element (u : URL) :
  Split (normalisePath u) slash
  = map (replace_runs false) (Split (Path u) slash)
  /\ (forall i : nat,
        Split (Path u) slash !! i = Some ".." ->
        Split (normalisePath u) slash !! i = Some "..")
  /\ (forall i : nat,
        Split (Path u) slash !! i = Some "." ->
        Split (normalisePath u) slash !! i = Some ".").
Proof.
  assert (H : Split (normalisePath u) slash
              = map (replace_runs false) (Split (Path u) slash)).
  { unfold normalisePath. rewrite replace_runs_by_element.
    pose proof (Split_nonempty (Path u) slash) as Hne.
    destruct (Split (Path u) slash); [congruence|reflexivity]. }
  split; [exact H|].
  split; intros i Hi; rewrite H, list_lookup_fmap, Hi; reflexivity.
Qed.

End Normalise.


(** ** The header map of the request *)

Module HeaderMap.
Import GoString GoLib Fff PathFacts Flags.

(** What [SplitN2] answers: the entry itself when it has no colon, and
    otherwise the part before the first colon and the part after it. *)
Lemma cut_spec (s : string) (sep : ascii) :
  match cut s sep with
  | (before, None) => before = s /\ count_byte sep s = 0
  | (before, Some after) =>
      s = before +:+ String sep after /\ count_byte sep before = 0
  end.
Proof.
  induction s as [|a s IH]; simpl; [auto|].
  destruct (Ascii.eqb_spec a sep) as [->|Hne]; [auto|].
  destruct (cut s sep) as [before [after|]]; simpl.
  - destruct IH as [-> Hc]. rewrite (proj2 (Ascii.eqb_neq _ _) Hne). auto.
  - destruct IH as [-> Hc]. auto.
Qed.

Lemma SplitN2_two (entry name value : string) :
  SplitN2 entry ":"%char = [name; value] <->
  entry = name +:+ ":" +:+ value /\ count_byte ":"%char name = 0.
Proof.
  split.
  - unfold SplitN2. pose proof (cut_spec entry ":"%char) as Hcut.
    destruct (cut entry ":"%char) as [before [after|]];
      [intros [= <- <-]; exact Hcut|discriminate].
  - intros [-> Hname]. apply RequestHeaders.SplitN2_name_value. exact Hname.
Qed.

(** An entry without a colon sets nothing. *)
Lemma add_header_no_colon (h : Header) (entry : string) :
  count_byte ":"%char entry = 0 -> add_header h entry = h.
Proof.
  intros Hc. unfold add_header, SplitN2.
  pose proof (cut_spec entry ":"%char) as Hcut.
  destruct (cut entry ":"%char) as [before [after|]]; [|reflexivity].
  destruct Hcut as [-> _]. rewrite count_byte_app in Hc. simpl in Hc. lia.
Qed.

Lemma add_header_single (h : Header) (entry : string) :
  single_valued h -> single_valued (add_header h entry).
Proof.
  intros Hh. unfold add_header, Header_Set.
  destruct (SplitN2 entry ":"%char) as [|name [|value [|x l]]]; try exact Hh.
  intros k vs. rewrite lookup_insert. case_decide.
  - intros [= <-]. eauto.
  - apply Hh.
Qed.

Lemma add_headers_single (hs : headerArgs) :
  forall h, single_valued h -> single_valued (add_headers hs h).
Proof.
  unfold add_headers.
  induction hs as [|entry hs IH]; intros h Hh; [exact Hh|].
  simpl. apply IH, add_header_single, Hh.
Qed.

Lemma add_header_dom (h : Header) (entry k : string) :
  k ∈ dom (add_header h entry) <->
  k ∈ dom h
  \/ exists name value,
       SplitN2 entry ":"%char = [name; value]
       /\ CanonicalMIMEHeaderKey name = k.
Proof.
  unfold add_header, Header_Set.
  destruct (SplitN2 entry ":"%char) as [|name [|value [|x l]]];
    try (split; [auto|intros [H|(n & v & H & _)]; [exact H|discriminate H]]).
  rewrite dom_insert, elem_of_union, elem_of_singleton. split.
  - intros [->|H]; [right; eauto|left; exact H].
  - intros [H|(n & v & [= <- <-] & <-)]; auto.
Qed.

Lemma add_headers_dom (hs : headerArgs) (k : string) :
  forall h,
    k ∈ dom (add_headers hs h) <->
    k ∈ dom h
    \/ exists entry name value,
         In entry hs
         /\ SplitN2 entry ":"%char = [name; value]
         /\ CanonicalMIMEHeaderKey name = k.
Proof.
  unfold add_headers.
  induction hs as [|entry hs IH]; intros h; simpl.
  - split; [auto|]. intros [H|(e & _ & _ & [] & _)]. exact H.
  - rewrite IH, add_header_dom. split.
    + intros [[H|(n & v & H1 & H2)]|(e & n & v & H1 & H2)].
      * left. exact H.
      * right. exists entry, n, v. auto.
      * right. exists e, n, v. tauto.
    + intros [H|(e & n & v & [<-|Hin] & H2)].
      * left. left. exact H.
      * left. right. exists n, v. exact H2.
      * right. exists e, n, v. auto.
Qed.

(** X7. The header map of the request holds exactly the canonical names
    of the entries that have a colon (the name is what stands before
    the first colon), and one value for each: never two values for a
    name.  An entry without a colon sets nothing. *)
Theorem request_headers_one_value_per_name (c : Config)
  (method rawURL : string) (u : URL) :
  let h := req_Header (built_request c method rawURL u) in
  (forall k vs, h !! k = Some vs -> exists v, vs = [v])
  /\ (forall k,
        k ∈ dom h <->
        exists name value,
          In (name +:+ ":" +:+ value) (headers c)
          /\ count_byte ":"%char name = 0
          /\ CanonicalMIMEHeaderKey name = k)
  /\ (forall (h0 : Header) (entry : string),
        count_byte ":"%char entry = 0 -> add_header h0 entry = h0).
Proof.
  cbv zeta. cbn [req_Header built_request].
  split; [|split].
  - apply add_headers_single. intros k vs. rewrite lookup_empty.
    discriminate.
  - intros k. rewrite add_headers_dom, dom_empty. split.
    + intros [H|(e & n & v & Hin & Hs & Hk)].
      * apply elem_of_empty in H. destruct H.
      * apply SplitN2_two in Hs as [-> Hn]. exists n, v. auto.
    + intros (n & v & Hin & Hn & Hk). right.
      exists (n +:+ ":" +:+ v), n, v. split; [exact Hin|].
      split; [apply SplitN2_two; auto|exact Hk].
  - apply add_header_no_colon.
Qed.

End HeaderMap.


(** ** What the filter keeps *)

Module FilterFacts.
Import GoString GoLib Fff PathFacts Classifier Flags.

(** X8. A response that the filter keeps has its status in [matchCode]
    (when that list is not empty) and in [filterCode] (when that list is
    not empty): both lists are lists of statuses to let through.  So
    with both lists given and no status in both, no response is kept. *)
Theorem kept_status_is_in_both_lists (c : Config) (responseBody : string)
  (StatusCode : Z) :
  (classify c responseBody StatusCode = Keep ->
   (matchCode c <> [] -> In StatusCode (matchCode c))
   /\ (filterCode c <> [] -> In StatusCode (filterCode c)))
  /\ (matchCode c <> [] ->
      filterCode c <> [] ->
      (forall x, In x (matchCode c) -> ~ In x (filterCode c)) ->
      classify c responseBody StatusCode <> Keep).
Proof.
  assert (Hkept : classify c responseBody StatusCode = Keep ->
                  (matchCode c <> [] -> In StatusCode (matchCode c))
                  /\ (filterCode c <> [] -> In StatusCode (filterCode c))).
  { unfold classify.
    destruct (pred_html c responseBody); [discriminate|].
    destruct (pred_empty c responseBody); [discriminate|].
    destruct (pred_matchString c responseBody); [discriminate|].
    destruct (pred_matchCode c StatusCode) eqn:H4; [discriminate|].
    destruct (pred_filterCode c StatusCode) eqn:H5; [discriminate|].
    intros _. unfold pred_matchCode in H4. unfold pred_filterCode in H5.
    split; intros Hne; apply Includes_In.
    - apply nonempty_length in Hne. rewrite Hne in H4. simpl in H4.
      apply negb_false_iff in H4. exact H4.
    - apply nonempty_length in Hne. rewrite Hne in H5. simpl in H5.
      apply negb_false_iff in H5. exact H5. }
  split; [exact Hkept|].
  intros Hm Hf Hdisjoint Hkeep.
  destruct (Hkept Hkeep) as [H1 H2].
  exact (Hdisjoint StatusCode (H1 Hm) (H2 Hf)).
Qed.

(** *** The HTML test *)

Lemma lower_ascii_app (a b : string) :
  lower_ascii (a +:+ b) = lower_ascii a +:+ lower_ascii b.
Proof.
  induction a as [|x a IH]; [reflexivity|].
  rewrite sapp_cons. simpl. rewrite IH. reflexivity.
Qed.

(** A string whose small letters split in two splits in two itself. *)
Lemma lower_ascii_split (x y : string) :
  forall s,
    lower_ascii s = x +:+ y ->
    exists s1 s2, s = s1 +:+ s2 /\ lower_ascii s1 = x /\ lower_ascii s2 = y.
Proof.
  induction x as [|a x IH]; intros s Hs.
  - exists "", s. auto.
  - destruct s as [|b s]; [discriminate Hs|].
    rewrite sapp_cons in Hs. simpl in Hs. injection Hs as Ha Hs.
    destruct (IH s Hs) as (s1 & s2 & -> & H1 & H2).
    exists (String b s1), s2. simpl. rewrite Ha, H1. auto.
Qed.

(** X9. With [ignoreHTMLFiles] set, the HTML test holds exactly when
    five bytes in a row, somewhere in the body, read [<html] once their
    ASCII capitals are made small; where in the body, and what the
    [Content-Type] says, does not matter. *)
Theorem html_test_finds_the_tag_anywhere (c : Config)
  (responseBody : string) :
  pred_html c responseBody = true <->
  ignoreHTMLFiles c = true
  /\ exists pre tag post,
       responseBody = pre +:+ tag +:+ post /\ lower_ascii tag = "<html".
Proof.
  unfold pred_html, isHTML.
  rewrite andb_true_iff, ContainsFold_lower.
  change (lower_ascii "<html") with "<html".
  rewrite Contains_spec. split.
  - intros [Hflag (pre & post & H)]. split; [exact Hflag|].
    destruct (lower_ascii_split pre _ _ H) as (s1 & s2 & -> & _ & H2).
    destruct (lower_ascii_split "<html" _ _ H2) as (t & s3 & -> & Ht & _).
    exists s1, t, s3. auto.
  - intros [Hflag (pre & tag & post & -> & Htag)]. split; [exact Hflag|].
    exists (lower_ascii pre), (lower_ascii post).
    rewrite !lower_ascii_app, Htag. reflexivity.
Qed.

(** *** The empty test *)

Lemma exists_byte_rev_app (f : ascii -> bool) (s : string) :
  forall t,
    exists_byte f (String.rev_app s t) = exists_byte f s || exists_byte f t.
Proof.
  induction s as [|a s IH]; intros t; [reflexivity|].
  simpl. rewrite IH. simpl.
  destruct (f a), (exists_byte f s), (exists_byte f t); reflexivity.
Qed.

Lemma exists_byte_rev (f : ascii -> bool) (s : string) :
  exists_byte f (String.rev s) = exists_byte f s.
Proof.
  unfold String.rev. rewrite exists_byte_rev_app. simpl.
  apply orb_false_r.
Qed.

Lemma high_not_solid (c : ascii) :
  (128 <= byte_val c)%N -> solid c = false.
Proof.
  intros H. unfold solid.
  assert (E : (byte_val c <? 128)%N = false) by (apply N.ltb_ge; exact H).
  rewrite E. apply andb_false_r.
Qed.

Lemma space1_not_solid (c : ascii) : space1 c = true -> solid c = false.
Proof. intros H. unfold solid. rewrite H. reflexivity. Qed.

Lemma space2_high (a b : ascii) :
  space2 a b = true -> (128 <= byte_val a)%N /\ (128 <= byte_val b)%N.
Proof.
  unfold space2.
  rewrite andb_true_iff, orb_true_iff, !N.eqb_eq. lia.
Qed.

Lemma space3_high (a b c : ascii) :
  space3 a b c = true ->
  (128 <= byte_val a)%N /\ (128 <= byte_val b)%N /\ (128 <= byte_val c)%N.
Proof.
  unfold space3, in_range.
  rewrite !orb_true_iff, !andb_true_iff, !orb_true_iff, !andb_true_iff,
    !N.eqb_eq, !N.leb_le.
  lia.
Qed.

Section TrimKeeps.
Variable enc2 : ascii -> ascii -> bool.
Variable enc3 : ascii -> ascii -> ascii -> bool.
Hypothesis enc2_high :
  forall a b, enc2 a b = true -> solid a = false /\ solid b = false.
Hypothesis enc3_high :
  forall a b c,
    enc3 a b c = true -> solid a = false /\ solid b = false /\ solid c = false.

(** Trimming takes away white space only: a solid byte stays. *)
Lemma trim_front_keeps_solid (n : nat) :
  forall s,
    String.length s <= n ->
    exists_byte solid s = true ->
    exists_byte solid (trim_front enc2 enc3 s) = true.
Proof.
  induction n as [|n IH]; intros s Hlen Hs.
  - destruct s; [discriminate Hs|simpl in Hlen; lia].
  - destruct s as [|a r1]; [discriminate Hs|].
    cbn [trim_front]. destruct (space1 a) eqn:H1.
    + apply IH; [simpl in Hlen; lia|].
      simpl in Hs. rewrite (space1_not_solid a H1) in Hs. exact Hs.
    + destruct r1 as [|b r2]; [exact Hs|].
      destruct (enc2 a b) eqn:H2.
      * destruct (enc2_high a b H2) as [Ha Hb].
        apply IH; [simpl in Hlen; lia|].
        simpl in Hs. rewrite Ha, Hb in Hs. exact Hs.
      * destruct r2 as [|c r3]; [exact Hs|].
        destruct (enc3 a b c) eqn:H3; [|exact Hs].
        destruct (enc3_high a b c H3) as (Ha & Hb & Hc).
        apply IH; [simpl in Hlen; lia|].
        simpl in Hs. rewrite Ha, Hb, Hc in Hs. exact Hs.
Qed.

(** Bytes of ASCII white space are all trimmed away. *)
Lemma trim_front_all_space (s : string) :
  forall_bytes space1 s = true -> trim_front enc2 enc3 s = "".
Proof.
  induction s as [|a s IH]; [reflexivity|]. simpl.
  intros H. apply andb_true_iff in H as [-> H]. apply IH. exact H.
Qed.

End TrimKeeps.

Lemma TrimSpace_keeps_solid (s : string) :
  exists_byte solid s = true -> exists_byte solid (TrimSpace s) = true.
Proof.
  intros Hs. unfold TrimSpace, TrimRightSpace, TrimLeftSpace.
  rewrite exists_byte_rev.
  apply (trim_front_keeps_solid _ _) with (n := String.length
    (String.rev (trim_front space2 space3 s))); [| |lia|].
  - intros a b H. destruct (space2_high b a H) as [Hb Ha].
    split; apply high_not_solid; assumption.
  - intros a b c H. destruct (space3_high c b a H) as (Hc & Hb & Ha).
    repeat split; apply high_not_solid; assumption.
  - rewrite exists_byte_rev.
    apply (trim_front_keeps_solid _ _) with (n := String.length s);
      [| |lia|exact Hs].
    + intros a b H. destruct (space2_high a b H) as [Ha Hb].
      split; apply high_not_solid; assumption.
    + intros a b c H. destruct (space3_high a b c H) as (Ha & Hb & Hc).
      repeat split; apply high_not_solid; assumption.
Qed.

(** X10. With [ignoreEmpty] set, a body made only of ASCII white space
    (TAB, LF, VT, FF, CR, SPACE), the empty body among them, fails the
    empty test and is dropped there unless the HTML test dropped it
    before; a body with an ASCII byte that is not white space passes the
    test, whatever else it holds. *)
Theorem empty_test_is_about_white_space (c : Config)
  (responseBody : string) :
  ignoreEmpty c = true ->
  (forall_bytes space1 responseBody = true ->
   pred_empty c responseBody = true)
  /\ (exists_byte solid responseBody = true ->
      pred_empty c responseBody = false).
Proof.
  intros Hflag. unfold pred_empty. rewrite Hflag. split.
  - intros Hall. unfold TrimSpace, TrimRightSpace, TrimLeftSpace.
    rewrite (trim_front_all_space _ _ _ Hall). reflexivity.
  - intros Hs. apply TrimSpace_keeps_solid in Hs.
    destruct (TrimSpace responseBody); [discriminate Hs|reflexivity].
Qed.

(** A body of blanks and newlines, and a body with one letter. *)
Lemma empty_test_is_about_white_space_witness :
  ignoreEmpty Sample.skip_empty = true
  /\ pred_empty Sample.skip_empty ("  " +:+ nl +:+ " ") = true
  /\ pred_empty Sample.skip_empty (" a" +:+ nl) = false.
Proof.
  split; [reflexivity|]. split.
  - exact (proj1 (empty_test_is_about_white_space Sample.skip_empty
                    ("  " +:+ nl +:+ " ") eq_refl) eq_refl).
  - exact (proj2 (empty_test_is_about_white_space Sample.skip_empty
                    (" a" +:+ nl) eq_refl) eq_refl).
Defined.

End FilterFacts.


(** ** Artifact mode *)

Module ArtifactMode.
Import GoString GoLib Fff PathFacts Classifier TaskFacts Requests Summary
  ArtifactPath Flags.

(** The four calls of [persist], and where it stops. *)
Lemma persist_cases (W : World) (c : Config) (method rawURL : string)
  (req : Request) (resp : Response) (responseBody : string) :
  let p := artifact_path W c (prefix_of c) method rawURL (req_URL req) ".body" in
  let hp :=
    artifact_path W c (prefix_of c) method rawURL (req_URL req) ".headers" in
  let buf := transcript W c method rawURL resp in
  events (persist W c method rawURL req resp responseBody) =
  match os_MkdirAll W (Dir p) with
  | Some err =>
      [MkdirAll (Dir p); Stderr ("failed to create dir: " +:+ err +:+ nl)]
  | None =>
      match ioutil_WriteFile W p responseBody with
      | Some err =>
          [MkdirAll (Dir p); WriteFile p responseBody;
           Stderr ("failed to write file contents: " +:+ err +:+ nl)]
      | None =>
          match os_Create W hp with
          | Some err =>
              [MkdirAll (Dir p); WriteFile p responseBody; Create hp;
               Stderr ("failed to create file: " +:+ err +:+ nl)]
          | None =>
              match io_Copy W hp buf with
              | Some err =>
                  [MkdirAll (Dir p); WriteFile p responseBody; Create hp;
                   Copy hp buf;
                   Stderr ("failed to write file contents: " +:+ err +:+ nl)]
              | None =>
                  [MkdirAll (Dir p); WriteFile p responseBody; Create hp;
                   Copy hp buf;
                   Stdout (p +:+ ": " +:+ rawURL +:+ " "
                           +:+ itoa (resp_StatusCode resp) +:+ nl)]
              end
          end
      end
  end.
Proof.
  cbv zeta. unfold persist. cbv zeta.
  destruct (os_MkdirAll W _); [reflexivity|].
  destruct (ioutil_WriteFile W _ _); [reflexivity|].
  destruct (os_Create W _); [reflexivity|].
  destruct (io_Copy W _ _); reflexivity.
Qed.

(** The events of a task whose response is kept, with a directory to
    write to. *)
Lemma task_kept_persist (W : World) (c : Config) (method rawURL : string)
  (ev : list Event) (req : Request) (resp : Response) (responseBody : string) :
  outputDir c <> "" ->
  fetch W c (promote (requestBody c) method) rawURL
    = (ev, Some (req, resp, responseBody)) ->
  classify c responseBody (resp_StatusCode resp) = Keep ->
  events (fst (task W c method rawURL)) =
    (ev ++ events (persist W c (promote (requestBody c) method) rawURL
                     req resp responseBody))%list.
Proof.
  intros Hdir Hfetch Hkeep.
  rewrite (task_kept _ _ _ _ _ _ _ _ Hfetch Hkeep).
  apply String.eqb_neq in Hdir. rewrite Hdir. unfold bind.
  destruct (persist W c _ rawURL req resp responseBody) as [ev' r].
  reflexivity.
Qed.

(** X11. With an output directory, a kept response and a file system
    that accepts the four calls, the task creates the directory of the
    body file, writes the body, creates the [.headers] file, copies the
    transcript into it and then prints [path: url status]; in this
    order, and nothing else.  The paths are built on the output
    directory: the default prefix [out] is never written to. *)
Theorem kept_response_is_persisted (W : World) (c : Config)
  (method rawURL : string) (ev : list Event) (req : Request)
  (resp : Response) (responseBody : string) :
  let m := promote (requestBody c) method in
  let p := artifact_path W c (outputDir c) m rawURL (req_URL req) ".body" in
  let hp := artifact_path W c (outputDir c) m rawURL (req_URL req) ".headers" in
  let buf := transcript W c m rawURL resp in
  outputDir c <> "" ->
  fetch W c m rawURL = (ev, Some (req, resp, responseBody)) ->
  classify c responseBody (resp_StatusCode resp) = Keep ->
  os_MkdirAll W (Dir p) = None ->
  ioutil_WriteFile W p responseBody = None ->
  os_Create W hp = None ->
  io_Copy W hp buf = None ->
  outputs (events (fst (task W c method rawURL))) =
    [MkdirAll (Dir p); WriteFile p responseBody; Create hp; Copy hp buf;
     Stdout (p +:+ ": " +:+ rawURL +:+ " " +:+ itoa (resp_StatusCode resp)
             +:+ nl)].
Proof.
  cbv zeta. intros Hdir Hfetch Hkeep H1 H2 H3 H4.
  rewrite (task_kept_persist _ _ _ _ _ _ _ _ Hdir Hfetch Hkeep).
  destruct (fetch_some _ _ _ _ _ _ _ _ Hfetch) as (-> & _ & _).
  rewrite persist_cases. cbv zeta.
  assert (Hp : prefix_of c = outputDir c).
  { unfold prefix_of. apply String.eqb_neq in Hdir. rewrite Hdir.
    reflexivity. }
  rewrite Hp, H1, H2, H3, H4. reflexivity.
Qed.

(** A page stored under [out]. *)
Lemma kept_response_is_persisted_witness :
  outputDir (Sample.to_dir "out" []) <> ""
  /\ outputs (events (fst (task (Sample.world "hi") (Sample.to_dir "out" [])
                             "GET" "http://example.test/a b")))
     = [MkdirAll "out/example.test/a-b";
        WriteFile "out/example.test/a-b/ab09.body" "hi";
        Create "out/example.test/a-b/ab09.headers";
        Copy "out/example.test/a-b/ab09.headers"
          (transcript (Sample.world "hi") (Sample.to_dir "out" []) "GET"
             "http://example.test/a b" (Sample.ok_response "hi"));
        Stdout ("out/example.test/a-b/ab09.body: http://example.test/a b 200"
                +:+ nl)].
Proof.
  split; [discriminate|].
  exact (kept_response_is_persisted (Sample.world "hi")
           (Sample.to_dir "out" []) "GET" "http://example.test/a b"
           _ _ _ _ ltac:(discriminate) eq_refl eq_refl
           eq_refl eq_refl eq_refl eq_refl).
Defined.

(** X12. Whatever the file system answers, [persist] prints exactly one
    line: the line [path: url status] on standard output when all four
    calls succeed, and otherwise one line on standard error.  It stops
    at the first call that fails, so the calls made are a beginning of
    the sequence create directory, write body, create headers file,
    copy transcript: the headers file is never created unless the body
    was written, and a failure to create or to fill the headers file
    leaves the body file in place. *)
Theorem persist_stops_at_first_failure (W : World) (c : Config)
  (method rawURL : string) (req : Request) (resp : Response)
  (responseBody : string) :
  let p := artifact_path W c (prefix_of c) method rawURL (req_URL req) ".body" in
  let hp :=
    artifact_path W c (prefix_of c) method rawURL (req_URL req) ".headers" in
  let buf := transcript W c method rawURL resp in
  let ev := events (persist W c method rawURL req resp responseBody) in
  let calls :=
    match os_MkdirAll W (Dir p), ioutil_WriteFile W p responseBody,
          os_Create W hp with
    | Some _, _, _ => 1
    | None, Some _, _ => 2
    | None, None, Some _ => 3
    | None, None, None => 4
    end in
  List.length (List.filter is_line ev) = 1
  /\ (existsb is_stdout ev = true <->
      os_MkdirAll W (Dir p) = None
      /\ ioutil_WriteFile W p responseBody = None
      /\ os_Create W hp = None
      /\ io_Copy W hp buf = None)
  /\ List.filter is_file_call ev =
       take calls [MkdirAll (Dir p); WriteFile p responseBody; Create hp;
                   Copy hp buf]
  /\ existsb is_stdout ev = negb (existsb is_stderr ev).
Proof.
  cbv zeta. rewrite persist_cases. cbv zeta.
  destruct (os_MkdirAll W _) as [e1|];
    [|destruct (ioutil_WriteFile W _ _) as [e2|];
      [|destruct (os_Create W _) as [e3|];
        [|destruct (io_Copy W _ _) as [e4|]]]];
    cbn; repeat split; try reflexivity; try discriminate;
    intros H; repeat match goal with G : _ /\ _ |- _ => destruct G end;
    discriminate.
Qed.

(** *** The ways through a task *)

(** Every run of a task is one of six. *)
Lemma task_events_cases (W : World) (c : Config) (method rawURL : string) :
  let m := promote (requestBody c) method in
  let ev := events (fst (task W c method rawURL)) in
  ev = []
  \/ (exists err, ev = error_line rawURL err)
  \/ (exists req err, ev = HTTPDo req :: error_line rawURL err)
  \/ (exists req, ev = [HTTPDo req])
  \/ (exists req resp responseBody,
        outputDir c = ""
        /\ ev = [HTTPDo req; Stdout (summary_line rawURL resp responseBody)])
  \/ (exists req resp responseBody,
        outputDir c <> ""
        /\ ev = HTTPDo req
                :: events (persist W c m rawURL req resp responseBody)).
Proof.
  cbv zeta. set (m := promote (requestBody c) method).
  destruct (fetch_cases W c m rawURL)
    as [[err Hp]|[Hp [[err Hn]|[u [Hn [[err Hd]|[resp [Hd [[err Hb]|[b Hb]]]]]]]]]].
  - left.
    rewrite (task_fetch_failed _ _ _ _ _ (fetch_bad_url _ _ _ _ _ Hp)).
    reflexivity.
  - right. left. exists err.
    rewrite (task_fetch_failed _ _ _ _ _ (fetch_bad_request _ _ _ _ _ Hp Hn)).
    reflexivity.
  - right. right. left. eexists. exists err.
    rewrite (task_fetch_failed _ _ _ _ _
               (fetch_no_response _ _ _ _ _ _ Hp Hn Hd)).
    reflexivity.
  - right. right. left. eexists. exists err.
    rewrite (task_fetch_failed _ _ _ _ _
               (fetch_no_body _ _ _ _ _ _ _ Hp Hn Hd Hb)).
    reflexivity.
  - pose proof (fetch_ok _ _ _ _ _ _ _ Hp Hn Hd Hb) as Hf.
    destruct (classify c b (resp_StatusCode resp)) eqn:Hv.
    + destruct (String.eqb_spec (outputDir c) "") as [Hout|Hout].
      * right. right. right. right. left. eexists. exists resp, b.
        split; [exact Hout|].
        rewrite (task_kept_summary _ _ _ _ _ _ _ _ Hout Hf Hv). reflexivity.
      * right. right. right. right. right. eexists. exists resp, b.
        split; [exact Hout|].
        rewrite (task_kept_persist _ _ _ _ _ _ _ _ Hout Hf Hv). reflexivity.
    + right; right; right; left; eexists.
      rewrite (task_dropped _ _ _ _ _ _ _ _ Hf); [reflexivity|congruence].
    + right; right; right; left; eexists.
      rewrite (task_dropped _ _ _ _ _ _ _ _ Hf); [reflexivity|congruence].
    + right; right; right; left; eexists.
      rewrite (task_dropped _ _ _ _ _ _ _ _ Hf); [reflexivity|congruence].
    + right; right; right; left; eexists.
      rewrite (task_dropped _ _ _ _ _ _ _ _ Hf); [reflexivity|congruence].
    + right; right; right; left; eexists.
      rewrite (task_dropped _ _ _ _ _ _ _ _ Hf); [reflexivity|congruence].
Qed.

Lemma persist_no_request (W : World) (c : Config) (method rawURL : string)
  (req : Request) (resp : Response) (responseBody : string) :
  Forall (fun e => is_output e = true)
         (events (persist W c method rawURL req resp responseBody)).
Proof.
  rewrite persist_cases. cbv zeta.
  destruct (os_MkdirAll W _);
    [|destruct (ioutil_WriteFile W _ _);
      [|destruct (os_Create W _); [|destruct (io_Copy W _ _)]]];
    repeat constructor.
Qed.

Lemma persist_one_line (W : World) (c : Config) (method rawURL : string)
  (req : Request) (resp : Response) (responseBody : string) :
  List.length
    (List.filter is_line
       (events (persist W c method rawURL req resp responseBody))) = 1.
Proof.
  rewrite persist_cases. cbv zeta.
  destruct (os_MkdirAll W _);
    [|destruct (ioutil_WriteFile W _ _);
      [|destruct (os_Create W _); [|destruct (io_Copy W _ _)]]];
    reflexivity.
Qed.

(** X13. Without an output directory a task never touches the file
    system and never writes to standard error, whatever the world
    answers: all it puts out is at most one line on standard output. *)
Theorem summary_mode_only_prints (W : World) (c : Config)
  (method rawURL : string) :
  outputDir c = "" ->
  let ev := events (fst (task W c method rawURL)) in
  List.filter is_file_call ev = []
  /\ List.filter is_stderr ev = []
  /\ List.length (List.filter is_stdout ev) <= 1.
Proof.
  intros Hout. cbv zeta.
  destruct (task_events_cases W c method rawURL)
    as [H|[[err H]|[(req & err & H)|[[req H]|[(req & resp & b & _ & H)
       |(req & resp & b & Hdir & _)]]]]];
    [rewrite H; cbn; auto..|congruence].
Qed.

(** A page, with no output directory. *)
Lemma summary_mode_only_prints_witness :
  outputDir Sample.no_filters = ""
  /\ List.filter is_file_call
       (events (fst (task (Sample.world "hi") Sample.no_filters "GET"
                       "http://example.test/a"))) = [].
Proof.
  split; [reflexivity|].
  exact (proj1 (summary_mode_only_prints (Sample.world "hi")
                  Sample.no_filters "GET" "http://example.test/a" eq_refl)).
Defined.

(** X14. A task hands at most one request to the client (nothing is
    tried twice), and when it does, that is the first thing it does;
    it prints at most one line, on standard output or on standard error,
    and touches the file system only after a request. *)
Theorem task_one_request_one_line (W : World) (c : Config)
  (method rawURL : string) :
  let ev := events (fst (task W c method rawURL)) in
  List.length (requests ev) <= 1
  /\ (forall req, In (HTTPDo req) ev -> hd_error ev = Some (HTTPDo req))
  /\ List.length (List.filter is_line ev) <= 1
  /\ (List.filter is_file_call ev <> [] -> List.length (requests ev) = 1).
Proof.
  cbv zeta.
  destruct (task_events_cases W c method rawURL)
    as [H|[[err H]|[(req & err & H)|[[req H]|[(req & resp & b & _ & H)
       |(req & resp & b & Hdir & H)]]]]]; rewrite H; clear H.
  1-5: cbn; repeat split; try lia; try congruence;
    intros r Hin;
    repeat (destruct Hin as [Hin|Hin]; [try discriminate Hin|]);
    try contradiction; congruence.
  set (m := promote (requestBody c) method).
  pose proof (persist_requests W c m rawURL req resp b) as Hq.
  pose proof (persist_no_request W c m rawURL req resp b) as Hno.
  pose proof (persist_one_line W c m rawURL req resp b) as Hl.
  cbn [requests List.filter is_line is_file_call List.length hd_error].
  rewrite Hq, Hl. repeat split; try (cbn; lia).
  intros r [Hin|Hin]; [congruence|].
  apply (proj1 (List.Forall_forall _ _) Hno) in Hin. discriminate Hin.
Qed.

(** *** The two paths *)

Lemma Contains_slash (s : string) :
  Contains s "/" = negb (count_byte slash s =? 0)%nat.
Proof.
  induction s as [|a s IH]; [reflexivity|].
  cbn [Contains HasPrefix count_byte]. fold slash.
  destruct (Ascii.eqb a slash); [destruct s; reflexivity|].
  rewrite andb_false_l. exact IH.
Qed.

(** A last element without slashes does not change the directory
    part. *)
Lemma dir_part_last (x f : string) :
  count_byte slash f = 0 -> dir_part (x +:+ f) = dir_part x.
Proof.
  intros Hf. induction x as [|c x IH].
  - rewrite sapp_nil_l. destruct f as [|a f]; [reflexivity|].
    cbn [dir_part]. rewrite Contains_slash.
    simpl in Hf. destruct (Ascii.eqb a slash); [discriminate|].
    simpl in Hf. rewrite Hf. reflexivity.
  - rewrite sapp_cons. cbn [dir_part]. rewrite IH, !Contains_slash.
    rewrite count_byte_app, Hf, Nat.add_0_r. reflexivity.
Qed.

Lemma app_not_empty (x f : string) : f <> "" -> String.eqb (x +:+ f) "" = false.
Proof.
  intros Hf. destruct x as [|c x]; [|reflexivity].
  rewrite sapp_nil_l. apply String.eqb_neq. exact Hf.
Qed.

(** A path joined from elements of which the last is plain: what stands
    before the last element does not depend on it. *)
Lemma path_Join_last (e : string) (es : list string) :
  e <> "" ->
  exists base : string,
    forall f : string,
      plain_elem f = true -> path_Join (e :: es ++ [f]) = base +:+ f.
Proof.
  intros He.
  set (r := HasPrefix e "/").
  set (K := fold_left (clean_step r) (flat_map (fun x => Split x slash) (e :: es))
                      []).
  exists ((if r then "/" else "")
          +:+ match rev K with
              | [] => ""
              | _ => Join (rev K) "/" +:+ "/"
              end).
  intros f Hf.
  rewrite path_Join_Clean by exact He.
  rewrite Clean_Join by exact He. fold r.
  change (e :: es ++ [f])%list with ((e :: es) ++ [f])%list.
  rewrite flat_map_app, fold_left_app. fold K.
  cbn [flat_map]. rewrite (Split_plain f slash (plain_no_slash f Hf)).
  cbn [app fold_left]. rewrite (clean_step_plain r K f Hf).
  unfold render. cbn [rev].
  assert (Hjoin : Join (rev K ++ [f]) "/"
                  = match rev K with
                    | [] => ""
                    | _ => Join (rev K) "/" +:+ "/"
                    end +:+ f).
  { destruct (rev K) as [|k ks] eqn:E; [reflexivity|].
    rewrite Join_app by discriminate. cbn [Join].
    rewrite sapp_assoc. reflexivity. }
  rewrite Hjoin, <- sapp_assoc.
  rewrite app_not_empty by (apply plain_nonempty; exact Hf).
  reflexivity.
Qed.

(** X15. The path of the body file and the path of the headers file are
    the same up to the ending ([.body], [.headers]), and have the same
    directory: the directory that [os.MkdirAll] is asked for before the
    body is written is the directory in which the headers file is
    created. *)
Theorem both_files_in_one_directory (W : World) (c : Config)
  (method rawURL : string) (u : URL) :
  let p := artifact_path W c (prefix_of c) method rawURL u ".body" in
  let hp := artifact_path W c (prefix_of c) method rawURL u ".headers" in
  (exists base : string,
     p = base +:+ hex (hash W c method rawURL) +:+ ".body"
     /\ hp = base +:+ hex (hash W c method rawURL) +:+ ".headers")
  /\ Dir hp = Dir p.
Proof.
  cbv zeta. unfold artifact_path.
  destruct (path_Join_last (prefix_of c) [Hostname u; normalisePath u]
              (prefix_of_nonempty c)) as [base Hbase].
  assert (Hb : plain_elem (hex (hash W c method rawURL) +:+ ".body") = true)
    by (apply file_name_plain; [reflexivity|simpl; lia]).
  assert (Hh : plain_elem (hex (hash W c method rawURL) +:+ ".headers") = true)
    by (apply file_name_plain; [reflexivity|simpl; lia]).
  pose proof (Hbase _ Hb) as Ep. pose proof (Hbase _ Hh) as Eh.
  cbn [app] in Ep, Eh. rewrite Ep, Eh.
  split; [exists base; auto|].
  unfold Dir.
  rewrite (dir_part_last base _ (plain_no_slash _ Hb)).
  rewrite (dir_part_last base _ (plain_no_slash _ Hh)).
  reflexivity.
Qed.

End ArtifactMode.


(** ** The loop and the client *)

Module LoopAndClient.
Import GoString GoLib Fff PathFacts Classifier TaskFacts Requests Flags.

(** Looking at the body a second time changes nothing. *)
Lemma promote_twice (requestBody method : string) :
  promote requestBody (promote requestBody method)
  = promote requestBody method.
Proof.
  unfold promote. destruct (String.eqb requestBody ""); [reflexivity|].
  simpl. destruct (String.eqb_spec method "GET"); [reflexivity|].
  destruct (String.eqb_spec method "GET"); [contradiction|reflexivity].
Qed.

(** A task that finds the method already promoted runs as the first
    task did. *)
Lemma task_after_promotion (W : World) (c : Config) (method rawURL : string) :
  task W c (promote (requestBody c) method) rawURL = task W c method rawURL.
Proof. unfold task. cbv zeta. rewrite promote_twice. reflexivity. Qed.

(** X16. The variable [method] is shared by the tasks and written by
    them.  Whatever the tasks have written to it, it holds the value of
    the flag or the promotion of that value; a task that finds either
    of the two does what it does with the value of the flag (the same
    events, the same request) and leaves the promotion, which a further
    promotion does not change. *)
Theorem task_same_for_every_method_value (W : World) (c : Config)
  (flag rawURL m : string) :
  method_value c flag m ->
  (m = flag \/ m = promote (requestBody c) flag)
  /\ task W c m rawURL = task W c flag rawURL
  /\ snd (task W c m rawURL) = promote (requestBody c) flag
  /\ promote (requestBody c) (snd (task W c m rawURL))
     = snd (task W c m rawURL).
Proof.
  intros Hm.
  assert (Hcases : m = flag \/ m = promote (requestBody c) flag).
  { induction Hm as [|m Hm [->| ->]]; [left; reflexivity| |];
      right; [reflexivity|apply promote_twice]. }
  assert (Htask : task W c m rawURL = task W c flag rawURL).
  { destruct Hcases as [->| ->]; [reflexivity|apply task_after_promotion]. }
  split; [exact Hcases|]. split; [exact Htask|].
  rewrite Htask, task_method. split; [reflexivity|apply promote_twice].
Qed.

(** The flag [GET], a body, and the method as an earlier task left it. *)
Lemma task_same_for_every_method_value_witness :
  method_value (Sample.with_body "data") "GET" "POST"
  /\ task (Sample.world "hi") (Sample.with_body "data") "POST"
          "http://example.test/a"
     = task (Sample.world "hi") (Sample.with_body "data") "GET"
          "http://example.test/a".
Proof.
  split.
  - exact (mv_task (Sample.with_body "data") "GET" "GET"
             (mv_flag (Sample.with_body "data") "GET")).
  - exact (proj1 (proj2
      (task_same_for_every_method_value (Sample.world "hi")
         (Sample.with_body "data") "GET" "http://example.test/a" "POST"
         (mv_task (Sample.with_body "data") "GET" "GET"
            (mv_flag (Sample.with_body "data") "GET"))))).
Defined.

(** X17. [newClient] cannot fail.  The client goes through a proxy
    exactly when the proxy string is not empty and [url.Parse] accepts
    it; an empty string and a string that does not parse give the very
    client that no proxy gives.  Whatever the flags, the client follows
    no redirect ([CheckRedirect] always answers
    [http.ErrUseLastResponse]), verifies no certificate, and turns
    keep-alive off unless it was asked for. *)
Theorem newClient_falls_back_to_direct (ProxyURL : Type)
  (url_Parse : string -> ProxyURL + GoError) (keepAlives : bool)
  (proxy : string) :
  let cl := newClient ProxyURL url_Parse keepAlives proxy in
  (forall p : ProxyURL,
     Proxy (client_Transport cl) = Some p <->
     proxy <> "" /\ url_Parse proxy = inl p)
  /\ (proxy = "" \/ (exists err, url_Parse proxy = inr err) ->
      cl = newClient ProxyURL url_Parse keepAlives "")
  /\ (forall (req : Request) (via : list Request),
        CheckRedirect cl req via = ErrUseLastResponse)
  /\ InsecureSkipVerify (client_Transport cl) = true
  /\ DisableKeepAlives (client_Transport cl) = negb keepAlives.
Proof.
  cbv zeta. unfold newClient.
  destruct (String.eqb_spec proxy "") as [->|Hne]; cbn.
  - split; [|split; [|split; [|split]]]; try reflexivity.
    intros p. split; [discriminate|]. intros [Habs _]. congruence.
  - destruct (url_Parse proxy) as [p0|err]; cbn;
      (split; [|split; [|split; [|split]]]); try reflexivity.
    + intros p. split.
      * intros [= ->]. split; [exact Hne|reflexivity].
      * intros [_ [= ->]]. reflexivity.
    + intros [Habs|[err Habs]]; [contradiction|discriminate Habs].
    + intros p. split; [discriminate|]. intros [_ Habs]. discriminate Habs.
Qed.

End LoopAndClient.


(** ** More on requests and transcripts *)

Module RequestFacts.
Import GoString GoLib Fff PathFacts Classifier TaskFacts Requests Summary
  Flags.

(** X18. The filters look at responses only: two configurations with
    the same body and the same header list hand the same requests to
    the client for a line, however their filters and their output
    directories differ.  No filter saves a request. *)
Theorem filters_do_not_change_requests (W : World) (c c' : Config)
  (method rawURL : string) :
  requestBody c' = requestBody c ->
  headers c' = headers c ->
  requests (events (fst (task W c' method rawURL)))
  = requests (events (fst (task W c method rawURL))).
Proof.
  intros Hbody Hheaders.
  pose proof (task_requests W c method rawURL) as H.
  pose proof (task_requests W c' method rawURL) as H'.
  cbv zeta in H, H'. rewrite Hbody in H'.
  destruct (url_ParseRequestURI W rawURL); [congruence|].
  destruct (http_NewRequest W _ rawURL) as [u|err]; [|congruence].
  rewrite H, H'. unfold built_request. rewrite Hbody, Hheaders.
  reflexivity.
Qed.

(** No filter, and two filters that drop the page. *)
Lemma filters_do_not_change_requests_witness :
  requestBody Sample.skip_empty = requestBody Sample.no_filters
  /\ headers Sample.skip_empty = headers Sample.no_filters
  /\ requests (events (fst (task (Sample.world "") Sample.skip_empty "GET"
                             "http://example.test/a")))
     = requests (events (fst (task (Sample.world "") Sample.no_filters "GET"
                               "http://example.test/a"))).
Proof.
  split; [reflexivity|]. split; [reflexivity|].
  exact (filters_do_not_change_requests (Sample.world "") Sample.no_filters
           Sample.skip_empty "GET" "http://example.test/a" eq_refl eq_refl).
Defined.

(** X19. A response that the filter drops leaves no trace, with or
    without an output directory: the request has been sent, and nothing
    is printed, no directory is made and no file is written. *)
Theorem dropped_response_leaves_no_trace (W : World) (c : Config)
  (method rawURL : string) (ev : list Event) (req : Request)
  (resp : Response) (responseBody : string) :
  fetch W c (promote (requestBody c) method) rawURL
    = (ev, Some (req, resp, responseBody)) ->
  classify c responseBody (resp_StatusCode resp) <> Keep ->
  events (fst (task W c method rawURL)) = [HTTPDo req]
  /\ outputs (events (fst (task W c method rawURL))) = [].
Proof.
  intros Hfetch Hdrop.
  rewrite (task_dropped _ _ _ _ _ _ _ _ Hfetch Hdrop).
  destruct (fetch_some _ _ _ _ _ _ _ _ Hfetch) as (-> & _ & _).
  split; reflexivity.
Qed.

(** A page with status 200 where only 404 is let through. *)
Lemma dropped_response_leaves_no_trace_witness :
  classify (Sample.only_codes [404]%Z) "hi" 200 <> Keep
  /\ outputs (events (fst (task (Sample.world "hi")
                             (Sample.only_codes [404]%Z) "GET"
                             "http://example.test/a"))) = [].
Proof.
  split; [discriminate|].
  exact (proj2 (dropped_response_leaves_no_trace (Sample.world "hi")
                  (Sample.only_codes [404]%Z) "GET" "http://example.test/a"
                  _ _ _ _ eq_refl ltac:(discriminate))).
Defined.

Lemma concat_map_In (f : string -> string) (x : string) (l : list string) :
  In x l ->
  exists pre post, concat (map f l) = pre +:+ f x +:+ post.
Proof.
  induction l as [|y l IH]; [intros []|]. intros [->|Hin].
  - exists "", (concat (map f l)). reflexivity.
  - destruct (IH Hin) as (pre & post & H).
    exists (f y +:+ pre), post. simpl. rewrite H, sapp_assoc. reflexivity.
Qed.

(** X20. The transcript starts with the method the task worked with and
    the raw URL, and shows every entry of the header list as it was
    given, one line [> entry] each: also an entry without a colon,
    which set no header on the request, and an entry whose value a later
    entry replaced. *)
Theorem transcript_shows_entries_as_given (W : World) (c : Config)
  (method rawURL : string) (resp : Response) :
  (exists rest,
     transcript W c method rawURL resp
     = method +:+ " " +:+ rawURL +:+ nl +:+ nl +:+ rest)
  /\ (forall entry,
        In entry (headers c) ->
        exists pre post,
          transcript W c method rawURL resp
          = pre +:+ ("> " +:+ entry +:+ nl) +:+ post)
  /\ (forall entry,
        In entry (headers c) ->
        count_byte ":"%char entry = 0 ->
        forall h : Header, add_header h entry = h).
Proof.
  split; [|split].
  - unfold transcript. rewrite !sapp_assoc. eexists. reflexivity.
  - intros entry Hin. unfold transcript.
    destruct (concat_map_In (fun h => "> " +:+ h +:+ nl) entry _ Hin)
      as (pre & post & ->).
    cbv beta.
    match goal with
    | |- exists p q, ?A +:+ (_ +:+ ?R) = _ =>
        exists (A +:+ pre), (post +:+ R)
    end.
    rewrite !sapp_assoc. reflexivity.
  - intros entry _ Hc h. apply HeaderMap.add_header_no_colon. exact Hc.
Qed.

(** *** Canonical names *)

Lemma to_upper_twice (c : ascii) : to_upper (to_upper c) = to_upper c.
Proof. destruct c as [[] [] [] [] [] [] [] []]; reflexivity. Qed.

Lemma to_lower_twice (c : ascii) : to_lower (to_lower c) = to_lower c.
Proof. destruct c as [[] [] [] [] [] [] [] []]; reflexivity. Qed.

Lemma to_upper_valid (c : ascii) :
  validHeaderFieldByte (to_upper c) = validHeaderFieldByte c.
Proof. destruct c as [[] [] [] [] [] [] [] []]; reflexivity. Qed.

Lemma to_lower_valid (c : ascii) :
  validHeaderFieldByte (to_lower c) = validHeaderFieldByte c.
Proof. destruct c as [[] [] [] [] [] [] [] []]; reflexivity. Qed.

Lemma canon_go_twice (s : string) :
  forall upper, canon_go upper (canon_go upper s) = canon_go upper s.
Proof.
  induction s as [|c s IH]; intros upper; [reflexivity|].
  cbn [canon_go]. cbv zeta.
  destruct upper; rewrite ?to_upper_twice, ?to_lower_twice, IH; reflexivity.
Qed.

Lemma canon_go_valid (s : string) :
  forall upper,
    forall_bytes validHeaderFieldByte (canon_go upper s)
    = forall_bytes validHeaderFieldByte s.
Proof.
  induction s as [|c s IH]; intros upper; [reflexivity|].
  cbn [canon_go forall_bytes]. cbv zeta.
  destruct upper; rewrite ?to_upper_valid, ?to_lower_valid, IH; reflexivity.
Qed.

(** A canonical name is its own canonical name. *)
Lemma CanonicalMIMEHeaderKey_twice (s : string) :
  CanonicalMIMEHeaderKey (CanonicalMIMEHeaderKey s) = CanonicalMIMEHeaderKey s.
Proof.
  unfold CanonicalMIMEHeaderKey.
  destruct (forall_bytes validHeaderFieldByte s) eqn:Hs.
  - rewrite canon_go_valid, Hs. apply canon_go_twice.
  - rewrite Hs. reflexivity.
Qed.

(** X21. Every name in the header map of the request is in canonical
    form, so [Header.Get] finds the value of an entry under any spelling
    of its name that has the same canonical form: [x-token], [X-TOKEN]
    and [X-Token] are one header. *)
Theorem request_header_names_are_canonical (c : Config)
  (method rawURL : string) (u : URL) :
  let h := req_Header (built_request c method rawURL u) in
  (forall k, k ∈ dom h -> CanonicalMIMEHeaderKey k = k)
  /\ (forall name name',
        CanonicalMIMEHeaderKey name' = CanonicalMIMEHeaderKey name ->
        Header_Get h name' = Header_Get h name)
  /\ (forall name, Header_Get h (CanonicalMIMEHeaderKey name)
                   = Header_Get h name).
Proof.
  cbv zeta. cbn [req_Header built_request]. split; [|split].
  - intros k Hk. apply HeaderMap.add_headers_dom in Hk.
    destruct Hk as [Hk|(entry & name & value & _ & _ & <-)].
    + rewrite dom_empty in Hk. apply elem_of_empty in Hk. destruct Hk.
    + apply CanonicalMIMEHeaderKey_twice.
  - intros name name' Hsame. unfold Header_Get. rewrite Hsame. reflexivity.
  - intros name. unfold Header_Get. rewrite CanonicalMIMEHeaderKey_twice.
    reflexivity.
Qed.

End RequestFacts.
